(** * Time-locked balances: the evaluators of the five time-lock operations

    A shallow embedding of
    - the operation payloads and their stateless [validate] methods
      (the [time_lock_*_operation] structs),
    - the two persisted objects ([time_lock_balance_object] and
      [time_lock_withdrawal_object]),
    - the evaluators of [libraries/chain/time_lock_evaluator.cpp]
      ([do_evaluate] and [do_apply] of each of the five operations),
    followed by the properties of the resulting state machine. *)

From Stdlib Require Import ZArith Lia.
From stdpp Require Import base option gmap fin_maps.

Local Open Scope Z_scope.

(** ** Identifiers and primitive types *)

(** Object identifiers: the instance number of the object in its index. *)
Definition account_id_type := N.
Definition asset_id_type := N.
Definition time_lock_balance_id_type := N.
Definition time_lock_withdrawal_id_type := N.

(** Modelled from the spec: [share_type] is declared elsewhere in the code
    base.  A quantity is an integer; the code raises on overflow, so no
    wrap-around is modelled. *)
Definition share_type := Z.

(** Modelled from the spec: [fc::time_point_sec] is declared elsewhere.  A
    timestamp counts seconds, and adding a duration to it is integer addition
    ([finalize_at = current_time + review_period]). *)
Definition time_point_sec := Z.

(** Modelled from the spec: the [asset] struct is declared elsewhere in the
    code base.  It is a (quantity, asset-kind) pair. *)
Record asset := mk_asset { amount : share_type; asset_id : asset_id_type }.

(** Modelled from the spec: the operators of [asset] are declared with it.
    Unary minus negates the quantity. *)
Definition asset_neg (a : asset) : asset :=
  mk_asset (- amount a) (asset_id a).

(** Modelled from the spec: [a += b] increases the quantity of [a] by the
    quantity of [b]; the asset kind of [a] stays. *)
Definition asset_add (a b : asset) : asset :=
  mk_asset (amount a + amount b) (asset_id a).

(** Modelled from the spec: [a -= b] decreases the quantity of [a] by the
    quantity of [b]; the asset kind of [a] stays. *)
Definition asset_sub (a b : asset) : asset :=
  mk_asset (amount a - amount b) (asset_id a).

(** Modelled from the spec: [a >= b] compares the quantities
    ([balance.amount.quantity >= amount.quantity]). *)
Definition asset_ge (a b : asset) : bool := amount b <=? amount a.

(** ** Persisted objects *)

(** [time_lock_balance_object] *)
Record time_lock_balance_object := mk_balance {
  tlb_owner : account_id_type;
  tlb_amount : asset;
  tlb_review_period_seconds : Z
}.

(** Helper method [asset_type()] of the balance object. *)
Definition asset_type (b : time_lock_balance_object) : asset_id_type :=
  asset_id (tlb_amount b).

(** [time_lock_withdrawal_object].  The evaluators store the operation's
    balance identifier in [balance] and later resolve it against the database
    ([withdrawal.balance(d)]); [withdrawal] is a bare quantity whose asset kind
    is the one of the balance. *)
Record time_lock_withdrawal_object := mk_withdrawal {
  tlw_balance : time_lock_balance_id_type;
  tlw_withdrawal : share_type;
  tlw_recipient : account_id_type;
  tlw_finalize_date : time_point_sec
}.

(** ** Operations *)

Record time_lock_create_operation := mk_create {
  create_fee : asset;
  create_owner : account_id_type;
  create_initial_deposit : asset;
  create_review_period_seconds : Z
}.

Record time_lock_deposit_operation := mk_deposit {
  deposit_fee : asset;
  deposit_owner : account_id_type;
  deposit_balance : time_lock_balance_id_type;
  deposit_deposit : asset
}.

Record time_lock_withdraw_operation := mk_withdraw {
  withdraw_fee : asset;
  withdraw_owner : account_id_type;
  withdraw_balance : time_lock_balance_id_type;
  withdraw_withdrawal : asset;
  withdraw_recipient : account_id_type
}.

Record time_lock_abort_withdrawal_operation := mk_abort {
  abort_fee : asset;
  abort_owner : account_id_type;
  abort_withdrawal : time_lock_withdrawal_id_type
}.

Record time_lock_complete_withdrawal_operation := mk_complete {
  complete_fee : asset;
  complete_acting_account : account_id_type;
  complete_recipient : account_id_type;
  complete_amount : asset;
  complete_withdrawal : time_lock_withdrawal_id_type
}.

Inductive operation :=
| Create (o : time_lock_create_operation)
| Deposit (o : time_lock_deposit_operation)
| RequestWithdrawal (o : time_lock_withdraw_operation)
| AbortWithdrawal (o : time_lock_abort_withdrawal_operation)
| CompleteWithdrawal (o : time_lock_complete_withdrawal_operation).

(** ** Failures *)

(** Every failed [FC_ASSERT] and every failed identifier lookup aborts the
    operation.  The constructors name the failure conditions; each assertion
    of the source is tagged with the condition it guards. *)
Inductive error :=
| NotFound
| Unauthorized
| AssetMismatch
| RecipientMismatch
| AmountMismatch
| InsufficientFunds
| ReviewPeriodNotElapsed
| InvalidArgument.

#[global] Instance error_eq_dec : EqDecision error.
Proof. solve_decision. Defined.

Inductive result (A : Type) :=
| Ok (a : A)
| Err (e : error).
Arguments Ok {A} a.
Arguments Err {A} e.

Definition bind {A B} (r : result A) (k : A -> result B) : result B :=
  match r with
  | Ok a => k a
  | Err e => Err e
  end.

Notation "'let!' x := r 'in' k" := (bind r (fun x => k))
  (at level 10, x name, r at level 100, k at level 200).
Notation "'check!' r 'in' k" := (bind r (fun _ => k))
  (at level 10, r at level 100, k at level 200).

(** [FC_ASSERT(c, ...)] failing with the condition [e]. *)
Definition fc_assert (c : bool) (e : error) : result unit :=
  if c then Ok tt else Err e.

(** [FC_ASSERT(c, text, args)] whose message arguments [args] look objects up
    by identifier: the arguments are evaluated when the condition fails, and a
    lookup among them that throws is then the failure of the operation. *)
Definition fc_assert_msg (c : bool) (e : error) (args : result unit)
    : result unit :=
  if c then Ok tt else check! args in Err e.

(** An identifier lookup [id(d)]: throws when the identifier is bad. *)
Definition resolve {A} (o : option A) : result A :=
  match o with
  | Some a => Ok a
  | None => Err NotFound
  end.

(** ** Stateless validation of the operations *)

Definition create_validate (o : time_lock_create_operation) : result unit :=
  check! fc_assert (0 <? amount (create_fee o)) InvalidArgument in
  check! fc_assert (0 <=? amount (create_initial_deposit o)) InvalidArgument in
  fc_assert (0 <? create_review_period_seconds o) InvalidArgument.

Definition deposit_validate (o : time_lock_deposit_operation) : result unit :=
  check! fc_assert (0 <? amount (deposit_fee o)) InvalidArgument in
  fc_assert (0 <? amount (deposit_deposit o)) InvalidArgument.

Definition withdraw_validate (o : time_lock_withdraw_operation) : result unit :=
  check! fc_assert (0 <? amount (withdraw_fee o)) InvalidArgument in
  fc_assert (0 <? amount (withdraw_withdrawal o)) InvalidArgument.

Definition abort_withdrawal_validate
    (o : time_lock_abort_withdrawal_operation) : result unit :=
  fc_assert (0 <=? amount (abort_fee o)) InvalidArgument.

Definition complete_withdrawal_validate
    (o : time_lock_complete_withdrawal_operation) : result unit :=
  check! fc_assert (0 <=? amount (complete_fee o)) InvalidArgument in
  fc_assert (0 <? amount (complete_amount o)) InvalidArgument.

Definition validate (op : operation) : result unit :=
  match op with
  | Create o => create_validate o
  | Deposit o => deposit_validate o
  | RequestWithdrawal o => withdraw_validate o
  | AbortWithdrawal o => abort_withdrawal_validate o
  | CompleteWithdrawal o => complete_withdrawal_validate o
  end.

(** [fee_payer()] of each operation. *)
Definition fee_payer (op : operation) : account_id_type :=
  match op with
  | Create o => create_owner o
  | Deposit o => deposit_owner o
  | RequestWithdrawal o => withdraw_owner o
  | AbortWithdrawal o => abort_owner o
  | CompleteWithdrawal o => complete_acting_account o
  end.

(** ** The database *)

(** Modelled from the spec: the chain database is declared elsewhere in the
    code base.  The evaluators use of it: the account and asset objects that
    resolve, the ledger of account balances ([get_balance], [adjust_balance]),
    the head block time, and one index per time-lock object type, which hands
    out instance numbers in sequence ([create]) and supports lookup by
    identifier, [modify] and [remove]. *)
Record database := mk_database {
  account_index : gset account_id_type;
  asset_index : gset asset_id_type;
  account_balances : gmap (account_id_type * asset_id_type) share_type;
  head_block_time : time_point_sec;
  time_lock_balance_index : gmap time_lock_balance_id_type time_lock_balance_object;
  next_balance_id : time_lock_balance_id_type;
  time_lock_withdrawal_index :
    gmap time_lock_withdrawal_id_type time_lock_withdrawal_object;
  next_withdrawal_id : time_lock_withdrawal_id_type
}.

Definition set_account_balances
    (l : gmap (account_id_type * asset_id_type) share_type) (d : database) :=
  mk_database (account_index d) (asset_index d) l (head_block_time d)
    (time_lock_balance_index d) (next_balance_id d)
    (time_lock_withdrawal_index d) (next_withdrawal_id d).

Definition set_head_block_time (t : time_point_sec) (d : database) :=
  mk_database (account_index d) (asset_index d) (account_balances d) t
    (time_lock_balance_index d) (next_balance_id d)
    (time_lock_withdrawal_index d) (next_withdrawal_id d).

Definition set_balances
    (m : gmap time_lock_balance_id_type time_lock_balance_object)
    (n : time_lock_balance_id_type) (d : database) :=
  mk_database (account_index d) (asset_index d) (account_balances d)
    (head_block_time d) m n
    (time_lock_withdrawal_index d) (next_withdrawal_id d).

Definition set_withdrawals
    (m : gmap time_lock_withdrawal_id_type time_lock_withdrawal_object)
    (n : time_lock_withdrawal_id_type) (d : database) :=
  mk_database (account_index d) (asset_index d) (account_balances d)
    (head_block_time d) (time_lock_balance_index d) (next_balance_id d) m n.

(** [id(d)] for an account, an asset, a balance and a withdrawal: the object
    when the identifier resolves, a failure otherwise. *)
Definition get_account (d : database) (id : account_id_type)
    : result account_id_type :=
  if decide (id ∈ account_index d) then Ok id else Err NotFound.

Definition get_asset (d : database) (id : asset_id_type)
    : result asset_id_type :=
  if decide (id ∈ asset_index d) then Ok id else Err NotFound.

Definition get_time_lock_balance (d : database)
    (id : time_lock_balance_id_type) : result time_lock_balance_object :=
  resolve (time_lock_balance_index d !! id).

Definition get_time_lock_withdrawal (d : database)
    (id : time_lock_withdrawal_id_type) : result time_lock_withdrawal_object :=
  resolve (time_lock_withdrawal_index d !! id).

(** Modelled from the spec: [get_balance] is [spendable_balance]; an account
    that holds nothing of an asset has balance zero. *)
Definition get_balance (d : database) (a : account_id_type)
    (k : asset_id_type) : asset :=
  mk_asset (default 0 (account_balances d !! (a, k))) k.

(** Modelled from the spec: the ledger's [credit]. *)
Definition credit (d : database) (a : account_id_type) (q : share_type)
    (k : asset_id_type) : result database :=
  Ok (set_account_balances
        (<[(a, k) := amount (get_balance d a k) + q]> (account_balances d)) d).

(** Modelled from the spec: the ledger's [debit]; it fails when the account
    holds less than the quantity to take. *)
Definition debit (d : database) (a : account_id_type) (q : share_type)
    (k : asset_id_type) : result database :=
  check! fc_assert (q <=? amount (get_balance d a k)) InsufficientFunds in
  Ok (set_account_balances
        (<[(a, k) := amount (get_balance d a k) - q]> (account_balances d)) d).

(** Modelled from the spec: [adjust_balance] credits a non-negative delta and
    debits the opposite of a negative one. *)
Definition adjust_balance (d : database) (a : account_id_type)
    (delta : asset) : result database :=
  if amount delta <? 0
  then debit d a (- amount delta) (asset_id delta)
  else credit d a (amount delta) (asset_id delta).

(** Modelled from the spec: [create] of an index inserts the new object under
    the next instance number of the index and returns it. *)
Definition create_balance (d : database) (b : time_lock_balance_object)
    : database * time_lock_balance_id_type :=
  (set_balances (<[next_balance_id d := b]> (time_lock_balance_index d))
     (N.succ (next_balance_id d)) d,
   next_balance_id d).

(** Modelled from the spec: [create] for the index of pending withdrawals. *)
Definition create_withdrawal (d : database) (w : time_lock_withdrawal_object)
    : database * time_lock_withdrawal_id_type :=
  (set_withdrawals
     (<[next_withdrawal_id d := w]> (time_lock_withdrawal_index d))
     (N.succ (next_withdrawal_id d)) d,
   next_withdrawal_id d).

(** Modelled from the spec: [modify] updates the object stored under the
    identifier. *)
Definition modify_balance (d : database) (id : time_lock_balance_id_type)
    (f : time_lock_balance_object -> time_lock_balance_object) : database :=
  set_balances (alter f id (time_lock_balance_index d)) (next_balance_id d) d.

(** Modelled from the spec: [remove] deletes the object stored under the
    identifier. *)
Definition remove_withdrawal (d : database)
    (id : time_lock_withdrawal_id_type) : database :=
  set_withdrawals (delete id (time_lock_withdrawal_index d))
    (next_withdrawal_id d) d.

(** What an evaluator returns: [void_result] or the identifier of the object
    it created. *)
Inductive operation_result :=
| void_result
| object_id_result (id : N).

(** ** The evaluators *)

(** A failing [FC_ASSERT] evaluates its message arguments.  Where these look
    an account or an asset up by identifier ([o.owner(d).name],
    [o.deposit.asset_id(d).symbol]), the lookup is part of the embedding
    ([fc_assert_msg]); [to_pretty_string] and the fields of objects already
    at hand only format text. *)

(** The modifiers handed to [modify]: [b.amount += q] and [b.amount -= q]. *)
Definition balance_plus (q : asset) (b : time_lock_balance_object)
    : time_lock_balance_object :=
  mk_balance (tlb_owner b) (asset_add (tlb_amount b) q)
    (tlb_review_period_seconds b).

Definition balance_minus (q : asset) (b : time_lock_balance_object)
    : time_lock_balance_object :=
  mk_balance (tlb_owner b) (asset_sub (tlb_amount b) q)
    (tlb_review_period_seconds b).

(** [time_lock_create_evaluator] *)
Definition create_do_evaluate (d : database) (o : time_lock_create_operation)
    : result unit :=
  let! owner_account := get_account d (create_owner o) in
  let! balance_asset := get_asset d (asset_id (create_initial_deposit o)) in
  fc_assert
    (amount (create_initial_deposit o)
       <=? amount (get_balance d owner_account balance_asset))
    InsufficientFunds.

Definition create_do_apply (d : database) (o : time_lock_create_operation)
    : result (database * operation_result) :=
  let! d1 := adjust_balance d (create_owner o)
               (asset_neg (create_initial_deposit o)) in
  let '(d2, id) :=
    create_balance d1
      (mk_balance (create_owner o) (create_initial_deposit o)
         (create_review_period_seconds o)) in
  Ok (d2, object_id_result id).

(** [time_lock_deposit_evaluator] *)
Definition deposit_do_evaluate (d : database) (o : time_lock_deposit_operation)
    : result unit :=
  let! balance := get_time_lock_balance d (deposit_balance o) in
  check! fc_assert (bool_decide (tlb_owner balance = deposit_owner o))
           Unauthorized in
  check! fc_assert_msg
           (bool_decide
              (asset_id (tlb_amount balance) = asset_id (deposit_deposit o)))
           AssetMismatch
           (let! _ := get_asset d (asset_id (deposit_deposit o)) in
            let! _ := get_asset d (asset_id (tlb_amount balance)) in
            Ok tt) in
  let! owner := get_account d (deposit_owner o) in
  fc_assert
    (amount (deposit_deposit o)
       <=? amount (get_balance d owner (asset_id (deposit_deposit o))))
    InsufficientFunds.

Definition deposit_do_apply (d : database) (o : time_lock_deposit_operation)
    : result (database * operation_result) :=
  let! d1 := adjust_balance d (deposit_owner o)
               (asset_neg (deposit_deposit o)) in
  let! _ := get_time_lock_balance d1 (deposit_balance o) in
  Ok (modify_balance d1 (deposit_balance o)
        (balance_plus (deposit_deposit o)),
      void_result).

(** [time_lock_withdraw_evaluator] *)
Definition withdraw_do_evaluate (d : database)
    (o : time_lock_withdraw_operation) : result unit :=
  let! balance := get_time_lock_balance d (withdraw_balance o) in
  check! fc_assert_msg (bool_decide (tlb_owner balance = withdraw_owner o))
           Unauthorized
           (let! _ := get_account d (withdraw_owner o) in
            let! _ := get_account d (tlb_owner balance) in
            Ok tt) in
  check! fc_assert_msg
           (bool_decide
              (asset_id (withdraw_withdrawal o) = asset_id (tlb_amount balance)))
           AssetMismatch
           (let! _ := get_asset d (asset_id (withdraw_withdrawal o)) in
            let! _ := get_asset d (asset_id (tlb_amount balance)) in
            Ok tt) in
  let! owner := get_account d (withdraw_owner o) in
  let! recipient := get_account d (withdraw_recipient o) in
  Ok tt.

Definition withdraw_do_apply (d : database) (o : time_lock_withdraw_operation)
    : result (database * operation_result) :=
  let! balance := get_time_lock_balance d (withdraw_balance o) in
  let review_period := tlb_review_period_seconds balance in
  let '(d1, id) :=
    create_withdrawal d
      (mk_withdrawal (withdraw_balance o) (amount (withdraw_withdrawal o))
         (withdraw_recipient o) (head_block_time d + review_period)) in
  Ok (d1, object_id_result id).

(** [time_lock_abort_withdrawal_evaluator] *)
Definition abort_withdrawal_do_evaluate (d : database)
    (o : time_lock_abort_withdrawal_operation) : result unit :=
  let! withdrawal := get_time_lock_withdrawal d (abort_withdrawal o) in
  let! balance := get_time_lock_balance d (tlw_balance withdrawal) in
  fc_assert_msg (bool_decide (abort_owner o = tlb_owner balance)) Unauthorized
    (let! _ := get_account d (abort_owner o) in
     let! _ := get_account d (tlb_owner balance) in
     Ok tt).

Definition abort_withdrawal_do_apply (d : database)
    (o : time_lock_abort_withdrawal_operation)
    : result (database * operation_result) :=
  let! _ := get_time_lock_withdrawal d (abort_withdrawal o) in
  Ok (remove_withdrawal d (abort_withdrawal o), void_result).

(** [time_lock_complete_withdrawal_evaluator] *)
Definition complete_withdrawal_do_evaluate (d : database)
    (o : time_lock_complete_withdrawal_operation) : result unit :=
  let! withdrawal := get_time_lock_withdrawal d (complete_withdrawal o) in
  let! balance := get_time_lock_balance d (tlw_balance withdrawal) in
  check! fc_assert (tlw_finalize_date withdrawal <=? head_block_time d)
           ReviewPeriodNotElapsed in
  check! fc_assert (asset_ge (tlb_amount balance) (complete_amount o))
           InsufficientFunds in
  check! fc_assert
           (bool_decide (complete_acting_account o = tlb_owner balance)
            || bool_decide
                 (complete_acting_account o = tlw_recipient withdrawal))
           Unauthorized in
  check! fc_assert
           (bool_decide (complete_recipient o = tlw_recipient withdrawal))
           RecipientMismatch in
  check! fc_assert
           (bool_decide
              (amount (complete_amount o) = tlw_withdrawal withdrawal))
           AmountMismatch in
  fc_assert
    (bool_decide
       (asset_id (complete_amount o) = asset_id (tlb_amount balance)))
    AssetMismatch.

Definition complete_withdrawal_do_apply (d : database)
    (o : time_lock_complete_withdrawal_operation)
    : result (database * operation_result) :=
  let! withdrawal := get_time_lock_withdrawal d (complete_withdrawal o) in
  let! balance := get_time_lock_balance d (tlw_balance withdrawal) in
  let d1 :=
    modify_balance d (tlw_balance withdrawal)
      (balance_minus (complete_amount o)) in
  let! d2 := adjust_balance d1 (complete_recipient o) (complete_amount o) in
  Ok (remove_withdrawal d2 (complete_withdrawal o), void_result).

(** The evaluator of an operation. *)
Definition do_evaluate (d : database) (op : operation) : result unit :=
  match op with
  | Create o => create_do_evaluate d o
  | Deposit o => deposit_do_evaluate d o
  | RequestWithdrawal o => withdraw_do_evaluate d o
  | AbortWithdrawal o => abort_withdrawal_do_evaluate d o
  | CompleteWithdrawal o => complete_withdrawal_do_evaluate d o
  end.

Definition do_apply (d : database) (op : operation)
    : result (database * operation_result) :=
  match op with
  | Create o => create_do_apply d o
  | Deposit o => deposit_do_apply d o
  | RequestWithdrawal o => withdraw_do_apply d o
  | AbortWithdrawal o => abort_withdrawal_do_apply d o
  | CompleteWithdrawal o => complete_withdrawal_do_apply d o
  end.

(** Modelled from the spec: the dispatcher that drives an evaluator is
    declared elsewhere.  It runs the validate step, which reads the state and
    may fail, and then the apply step. *)
Definition evaluate (d : database) (op : operation)
    : result (database * operation_result) :=
  check! do_evaluate d op in do_apply d op.

(** Modelled from the spec: an operation is first checked by its stateless
    [validate], then handed to its evaluator; a failure leaves the database as
    it was. *)
Definition apply_operation (d : database) (op : operation)
    : database * result operation_result :=
  match (check! validate op in evaluate d op) with
  | Ok (d', r) => (d', Ok r)
  | Err e => (d, Err e)
  end.

(** ** Histories *)

(** Modelled from the spec: operations are processed one at a time, in order;
    between them the chain produces blocks, which moves the head block time. *)
Inductive step :=
| Apply (op : operation)
| NewBlock (t : time_point_sec).

Definition exec (d : database) (s : step) : database :=
  match s with
  | Apply op => fst (apply_operation d op)
  | NewBlock t => set_head_block_time t d
  end.

Definition run (d : database) (steps : list step) : database :=
  fold_left exec steps d.

(** ** Sums over an index *)

Definition sum_map {K : Type} `{Countable K} {V : Type} (f : K -> V -> Z)
    (m : gmap K V) : Z :=
  map_fold (fun k v acc => f k v + acc) 0 m.

(** ** Funds *)

(** What account [a] holds of asset kind [k] in the ledger, and what the
    time-lock balance [id] holds. *)
Definition ledger_of (d : database) (a : account_id_type) (k : asset_id_type)
    : share_type :=
  amount (get_balance d a k).

Definition locked_of (d : database) (id : time_lock_balance_id_type)
    : share_type :=
  from_option (fun b => amount (tlb_amount b)) 0
    (time_lock_balance_index d !! id).

(** The funds of asset kind [k]: in the ledger, in the time-lock balances, and
    in both. *)
Definition ledger_entry (k : asset_id_type)
    (key : account_id_type * asset_id_type) (v : share_type) : Z :=
  if decide (key.2 = k) then v else 0.

Definition locked_entry (k : asset_id_type)
    (id : time_lock_balance_id_type) (b : time_lock_balance_object) : Z :=
  if decide (asset_type b = k) then amount (tlb_amount b) else 0.

Definition ledger_total (k : asset_id_type) (d : database) : Z :=
  sum_map (ledger_entry k) (account_balances d).

Definition locked_total (k : asset_id_type) (d : database) : Z :=
  sum_map (locked_entry k) (time_lock_balance_index d).

Definition total_funds (k : asset_id_type) (d : database) : Z :=
  ledger_total k d + locked_total k d.

(** The ledger entries other than that of account [a] and asset kind [k],
    and the time-lock balances other than [id], are the same in [d] and [d']. *)
Definition ledger_frame (d d' : database) (a : account_id_type)
    (k : asset_id_type) : Prop :=
  forall a' k', (a', k') <> (a, k) -> ledger_of d' a' k' = ledger_of d a' k'.

Definition balance_frame (d d' : database) (id : time_lock_balance_id_type)
    : Prop :=
  forall id', id' <> id ->
    time_lock_balance_index d' !! id' = time_lock_balance_index d !! id'.

(** How an operation moves funds from [d] to [d']: the owner's ledger entry
    pays what the time-lock balance gains (Create, Deposit), the recipient's
    ledger entry gains what the time-lock balance pays (CompleteWithdrawal),
    or nothing moves (RequestWithdrawal, AbortWithdrawal). *)
Definition funds_moved (d : database) (op : operation) (d' : database) : Prop :=
  match op with
  | Create o =>
      let q := amount (create_initial_deposit o) in
      let k := asset_id (create_initial_deposit o) in
      ledger_of d' (create_owner o) k = ledger_of d (create_owner o) k - q
      /\ locked_of d (next_balance_id d) = 0
      /\ locked_of d' (next_balance_id d) = q
      /\ ledger_frame d d' (create_owner o) k
      /\ balance_frame d d' (next_balance_id d)
  | Deposit o =>
      let q := amount (deposit_deposit o) in
      let k := asset_id (deposit_deposit o) in
      ledger_of d' (deposit_owner o) k = ledger_of d (deposit_owner o) k - q
      /\ locked_of d' (deposit_balance o) = locked_of d (deposit_balance o) + q
      /\ ledger_frame d d' (deposit_owner o) k
      /\ balance_frame d d' (deposit_balance o)
  | CompleteWithdrawal o =>
      let q := amount (complete_amount o) in
      let k := asset_id (complete_amount o) in
      exists w,
        time_lock_withdrawal_index d !! complete_withdrawal o = Some w
        /\ ledger_of d' (complete_recipient o) k
           = ledger_of d (complete_recipient o) k + q
        /\ locked_of d' (tlw_balance w) = locked_of d (tlw_balance w) - q
        /\ ledger_frame d d' (complete_recipient o) k
        /\ balance_frame d d' (tlw_balance w)
  | RequestWithdrawal _ | AbortWithdrawal _ =>
      account_balances d' = account_balances d
      /\ time_lock_balance_index d' = time_lock_balance_index d
  end.

(** Every time-lock balance of [d] is still in [d'], with its owner, asset
    kind and review period. *)
Definition balances_kept (d d' : database) : Prop :=
  forall id b,
    time_lock_balance_index d !! id = Some b ->
    exists b',
      time_lock_balance_index d' !! id = Some b'
      /\ tlb_owner b' = tlb_owner b
      /\ asset_type b' = asset_type b
      /\ tlb_review_period_seconds b' = tlb_review_period_seconds b.

(** ** The validation of CompleteWithdrawal, as specified *)

(** The conditions of the specification, in its order, each with the failure
    it raises; validation fails with the failure of the first condition that
    does not hold.  This is the specification's wording, to be compared with
    [complete_withdrawal_do_evaluate]. *)
Definition complete_conditions (now : time_point_sec)
    (w : time_lock_withdrawal_object) (b : time_lock_balance_object)
    (o : time_lock_complete_withdrawal_operation) : list (bool * error) :=
  [ (bool_decide (tlw_finalize_date w <= now), ReviewPeriodNotElapsed);
    (bool_decide (amount (complete_amount o) <= amount (tlb_amount b)),
     InsufficientFunds);
    (bool_decide (complete_acting_account o = tlb_owner b
                  \/ complete_acting_account o = tlw_recipient w),
     Unauthorized);
    (bool_decide (complete_recipient o = tlw_recipient w), RecipientMismatch);
    (bool_decide (amount (complete_amount o) = tlw_withdrawal w),
     AmountMismatch);
    (bool_decide (asset_id (complete_amount o) = asset_id (tlb_amount b)),
     AssetMismatch) ].

Fixpoint first_failure (conditions : list (bool * error)) : result unit :=
  match conditions with
  | [] => Ok tt
  | (c, e) :: rest => if c then first_failure rest else Err e
  end.

(** ** Invariants of the database *)

(** The indexes hand out fresh instance numbers, the owner of a balance is an
    account that resolves, and a pending withdrawal refers to a balance that
    resolves. *)
Definition store_wf (d : database) : Prop :=
  map_Forall
    (fun id b => (id < next_balance_id d)%N /\ tlb_owner b ∈ account_index d)
    (time_lock_balance_index d)
  /\ map_Forall
       (fun id w => (id < next_withdrawal_id d)%N
                    /\ is_Some (time_lock_balance_index d !! tlw_balance w))
       (time_lock_withdrawal_index d).

Definition balances_nonneg (d : database) : Prop :=
  map_Forall (fun _ b => 0 <= amount (tlb_amount b))
    (time_lock_balance_index d).

#[global] Instance store_wf_dec d : Decision (store_wf d).
Proof. unfold store_wf. apply _. Defined.

#[global] Instance balances_nonneg_dec d : Decision (balances_nonneg d).
Proof. unfold balances_nonneg. apply _. Defined.

(** A database with accounts, assets and a ledger, before any time-lock
    operation ran. *)
Definition genesis (accounts : gset account_id_type)
    (assets : gset asset_id_type)
    (ledger : gmap (account_id_type * asset_id_type) share_type)
    (now : time_point_sec) : database :=
  mk_database accounts assets ledger now ∅ 0%N ∅ 0%N.

(** ** A worked scenario *)

(** Owner [O] holds 500 units of asset kind [A]; the head block time is 1000.
    [O] creates a balance of 100 with a review period of 3600 seconds,
    deposits 50, requests a withdrawal of 150 to [R], aborts it, requests 100
    to [R], and after 3600 seconds [R] completes that withdrawal. *)
Definition account_O : account_id_type := 1%N.
Definition account_R : account_id_type := 2%N.
Definition asset_A : asset_id_type := 7%N.
Definition scenario_fee : asset := mk_asset 1 0%N.
Definition scenario_no_fee : asset := mk_asset 0 0%N.

Definition scenario_genesis : database :=
  genesis {[account_O; account_R]} {[0%N; asset_A]}
    {[(account_O, asset_A) := 500]} 1000.

Definition scenario_create : time_lock_create_operation :=
  mk_create scenario_fee account_O (mk_asset 100 asset_A) 3600.
Definition scenario_deposit : time_lock_deposit_operation :=
  mk_deposit scenario_fee account_O 0%N (mk_asset 50 asset_A).
Definition scenario_request_150 : time_lock_withdraw_operation :=
  mk_withdraw scenario_fee account_O 0%N (mk_asset 150 asset_A) account_R.
Definition scenario_abort : time_lock_abort_withdrawal_operation :=
  mk_abort scenario_no_fee account_O 0%N.
Definition scenario_request_100 : time_lock_withdraw_operation :=
  mk_withdraw scenario_fee account_O 0%N (mk_asset 100 asset_A) account_R.
Definition scenario_complete : time_lock_complete_withdrawal_operation :=
  mk_complete scenario_no_fee account_R account_R (mk_asset 100 asset_A) 1%N.

Definition scenario_steps : list step :=
  [ Apply (Create scenario_create);
    Apply (Deposit scenario_deposit);
    Apply (RequestWithdrawal scenario_request_150);
    Apply (AbortWithdrawal scenario_abort);
    Apply (RequestWithdrawal scenario_request_100);
    NewBlock 4600;
    Apply (CompleteWithdrawal scenario_complete) ].

(** The database after the balance was created, and after the withdrawal of
    150 was requested from it. *)
Definition scenario_created : database :=
  run scenario_genesis [Apply (Create scenario_create)].

Definition scenario_requested : database :=
  run scenario_created [Apply (RequestWithdrawal scenario_request_150)].

(** ** The fee schedule *)

(** [fee_parameters_type] of an operation: the fee the chain charges for it. *)
Record fee_parameters_type := mk_fee_parameters { fee : share_type }.

(** The default [fee_parameters_type] of each operation.  The constant
    [GRAPHENE_BLOCKCHAIN_PRECISION] is declared elsewhere in the code base; it
    is a parameter here. *)
Definition default_fee_parameters (GRAPHENE_BLOCKCHAIN_PRECISION : share_type)
    (op : operation) : fee_parameters_type :=
  match op with
  | Create _ => mk_fee_parameters GRAPHENE_BLOCKCHAIN_PRECISION
  | Deposit _ => mk_fee_parameters GRAPHENE_BLOCKCHAIN_PRECISION
  | RequestWithdrawal _ => mk_fee_parameters GRAPHENE_BLOCKCHAIN_PRECISION
  | AbortWithdrawal _ => mk_fee_parameters 0
  | CompleteWithdrawal _ => mk_fee_parameters 0
  end.

(** [calculate_fee(k)] of each operation. *)
Definition calculate_fee (op : operation) (k : fee_parameters_type)
    : share_type :=
  match op with
  | Create _ => fee k
  | Deposit _ => fee k
  | RequestWithdrawal _ => fee k
  | AbortWithdrawal _ => fee k
  | CompleteWithdrawal _ => fee k
  end.

(** The [fee] field of an operation. *)
Definition operation_fee (op : operation) : asset :=
  match op with
  | Create o => create_fee o
  | Deposit o => deposit_fee o
  | RequestWithdrawal o => withdraw_fee o
  | AbortWithdrawal o => abort_fee o
  | CompleteWithdrawal o => complete_fee o
  end.

(** ** Further invariants and bookkeeping *)

(** The recipient of every pending withdrawal is an account that resolves. *)
Definition recipients_resolve (d : database) : Prop :=
  map_Forall (fun _ w => tlw_recipient w ∈ account_index d)
    (time_lock_withdrawal_index d).

#[global] Instance recipients_resolve_dec d : Decision (recipients_resolve d).
Proof. unfold recipients_resolve. apply _. Defined.

(** No account is overdrawn: every entry of the ledger is non-negative. *)
Definition ledger_nonneg (d : database) : Prop :=
  map_Forall (fun _ v => 0 <= v) (account_balances d).

#[global] Instance ledger_nonneg_dec d : Decision (ledger_nonneg d).
Proof. unfold ledger_nonneg. apply _. Defined.



(** The pending withdrawal an operation names, when it names one. *)
Definition withdrawal_named (op : operation)
    : option time_lock_withdrawal_id_type :=
  match op with
  | AbortWithdrawal o => Some (abort_withdrawal o)
  | CompleteWithdrawal o => Some (complete_withdrawal o)
  | _ => None
  end.

(** The scenario with a deposit after the request of 150, when the review
    period is over; and a database with two pending withdrawals, of 60 and of
    40, on the balance of 100, when both review periods are over. *)
Definition scenario_due : database :=
  run scenario_requested [Apply (Deposit scenario_deposit); NewBlock 4600].

Definition scenario_complete_150 : time_lock_complete_withdrawal_operation :=
  mk_complete scenario_no_fee account_R account_R (mk_asset 150 asset_A) 0%N.

Definition scenario_two_requests : database :=
  run scenario_created
    [ Apply (RequestWithdrawal
               (mk_withdraw scenario_fee account_O 0%N (mk_asset 60 asset_A)
                  account_R));
      Apply (RequestWithdrawal
               (mk_withdraw scenario_fee account_O 0%N (mk_asset 40 asset_A)
                  account_O));
      NewBlock 4600 ].

Definition scenario_complete_60 : time_lock_complete_withdrawal_operation :=
  mk_complete scenario_no_fee account_R account_R (mk_asset 60 asset_A) 0%N.

Definition scenario_complete_40 : time_lock_complete_withdrawal_operation :=
  mk_complete scenario_no_fee account_O account_O (mk_asset 40 asset_A) 1%N.

Definition scenario_after_60 : database :=
  fst (apply_operation scenario_two_requests
         (CompleteWithdrawal scenario_complete_60)).

Definition scenario_after_60_40 : database :=
  fst (apply_operation scenario_after_60
         (CompleteWithdrawal scenario_complete_40)).

(** * Properties *)

(** ** Sums over an index *)

Section sum_map_facts.
Context {K : Type} `{Countable K} {V : Type}.
Variable f : K -> V -> Z.

Lemma sum_map_empty : sum_map f (∅ : gmap K V) = 0.
Proof. apply map_fold_empty. Qed.

Lemma sum_map_insert_fresh (m : gmap K V) i x :
  m !! i = None -> sum_map f (<[i:=x]> m) = f i x + sum_map f m.
Proof.
  intros Hi. unfold sum_map.
  rewrite map_fold_insert_L; [reflexivity | intros; lia | exact Hi].
Qed.

Lemma sum_map_delete (m : gmap K V) i x :
  m !! i = Some x -> sum_map f m = f i x + sum_map f (delete i m).
Proof.
  intros Hi. unfold sum_map.
  rewrite (map_fold_delete_L _ _ i x m); [reflexivity | intros; lia | exact Hi].
Qed.

Lemma sum_map_insert (m : gmap K V) i x :
  sum_map f (<[i:=x]> m)
  = sum_map f m - from_option (f i) 0 (m !! i) + f i x.
Proof.
  destruct (m !! i) as [y|] eqn:Hi; simpl.
  - rewrite <- insert_delete_eq.
    rewrite sum_map_insert_fresh by apply lookup_delete_eq.
    rewrite (sum_map_delete m i y Hi). lia.
  - rewrite sum_map_insert_fresh by exact Hi. lia.
Qed.

Lemma sum_map_alter (m : gmap K V) g i x :
  m !! i = Some x ->
  sum_map f (alter g i m) = sum_map f m - f i x + f i (g x).
Proof.
  intros Hi.
  rewrite <- (insert_id m i x Hi) at 1.
  rewrite alter_insert_eq, sum_map_insert, Hi. reflexivity.
Qed.

End sum_map_facts.

(** ** Results *)

Lemma bind_Ok {A B} (r : result A) (k : A -> result B) b :
  bind r k = Ok b <-> exists a, r = Ok a /\ k a = Ok b.
Proof.
  destruct r as [a|e]; simpl; split.
  - intros Hk. exists a. split; [reflexivity | exact Hk].
  - intros (a' & Ha & Hk). injection Ha as ->. exact Hk.
  - discriminate.
  - intros (a' & Ha & _). discriminate.
Qed.

Lemma fc_assert_Ok c e u : fc_assert c e = Ok u <-> c = true.
Proof. destruct c, u; simpl; split; (reflexivity || discriminate). Qed.

Lemma fc_assert_Err c e e' : fc_assert c e = Err e' <-> c = false /\ e' = e.
Proof.
  destruct c; simpl; split; try discriminate.
  - intros [Hc _]. discriminate.
  - intros He. injection He as <-. split; reflexivity.
  - intros [_ ->]. reflexivity.
Qed.

Lemma fc_assert_msg_Ok c e args u :
  fc_assert_msg c e args = Ok u <-> c = true.
Proof.
  destruct c, u; simpl; split; try reflexivity; try discriminate.
  destruct args; discriminate.
Qed.

Lemma resolve_Ok {A} (o : option A) a : resolve o = Ok a <-> o = Some a.
Proof.
  destruct o; simpl; split; try discriminate.
  - intros Ho. injection Ho as ->. reflexivity.
  - intros Ho. injection Ho as ->. reflexivity.
Qed.

Lemma get_account_Ok d id a :
  get_account d id = Ok a <-> id ∈ account_index d /\ a = id.
Proof.
  unfold get_account. case_decide; split.
  - intros Ha. injection Ha as <-. split; [assumption | reflexivity].
  - intros [_ ->]. reflexivity.
  - discriminate.
  - intros [Hin _]. contradiction.
Qed.

Lemma get_asset_Ok d id a :
  get_asset d id = Ok a <-> id ∈ asset_index d /\ a = id.
Proof.
  unfold get_asset. case_decide; split.
  - intros Ha. injection Ha as <-. split; [assumption | reflexivity].
  - intros [_ ->]. reflexivity.
  - discriminate.
  - intros [Hin _]. contradiction.
Qed.

(** Take a successful run of checks apart. *)
Ltac ok_inv :=
  repeat match goal with
  | H : bind _ _ = Ok _ |- _ =>
      apply bind_Ok in H; destruct H as (? & ? & H)
  | H : (let '(_, _) := ?p in _) = Ok _ |- _ => destruct p eqn:?
  | H : fc_assert _ _ = Ok _ |- _ => apply fc_assert_Ok in H
  | H : fc_assert_msg _ _ _ = Ok _ |- _ => apply fc_assert_msg_Ok in H
  | H : resolve _ = Ok _ |- _ => apply resolve_Ok in H
  | H : get_time_lock_balance _ _ = Ok _ |- _ =>
      unfold get_time_lock_balance in H
  | H : get_time_lock_withdrawal _ _ = Ok _ |- _ =>
      unfold get_time_lock_withdrawal in H
  | H : get_account _ _ = Ok _ |- _ =>
      apply get_account_Ok in H; destruct H as [H ->]
  | H : get_asset _ _ = Ok _ |- _ =>
      apply get_asset_Ok in H; destruct H as [H ->]
  | H : bool_decide _ = true |- _ => apply bool_decide_eq_true in H
  | H : (_ <=? _) = true |- _ => apply Z.leb_le in H
  | H : (_ <? _) = true |- _ => apply Z.ltb_lt in H
  | H : Ok _ = Ok _ |- _ => injection H as ?
  end.

(** ** The ledger *)

Lemma adjust_balance_Ok d a delta d' :
  adjust_balance d a delta = Ok d' <->
  (amount delta < 0 -> 0 <= ledger_of d a (asset_id delta) + amount delta)
  /\ d' = set_account_balances
            (<[(a, asset_id delta)
               := ledger_of d a (asset_id delta) + amount delta]>
               (account_balances d)) d.
Proof.
  unfold adjust_balance, debit, credit, ledger_of.
  destruct (Z.ltb_spec (amount delta) 0) as [Hneg|Hpos].
  - set (cur := amount (get_balance d a (asset_id delta))).
    replace (cur - - amount delta) with (cur + amount delta) by lia.
    destruct (Z.leb_spec (- amount delta) cur) as [Hle|Hgt]; simpl; split.
    + intros Hd. injection Hd as <-. split; [lia | reflexivity].
    + intros [_ ->]. reflexivity.
    + discriminate.
    + intros [Hc _]. lia.
  - split.
    + intros Hd. injection Hd as <-. split; [lia | reflexivity].
    + intros [_ ->]. reflexivity.
Qed.

Lemma ledger_of_insert d a k a' k' v :
  ledger_of (set_account_balances (<[(a, k) := v]> (account_balances d)) d)
    a' k'
  = if decide ((a, k) = (a', k')) then v else ledger_of d a' k'.
Proof.
  unfold ledger_of, get_balance; simpl.
  rewrite lookup_insert. case_decide; reflexivity.
Qed.

Lemma ledger_total_insert d a k v k' :
  ledger_total k' (set_account_balances (<[(a, k) := v]> (account_balances d)) d)
  = ledger_total k' d
    + (if decide (k = k') then v - ledger_of d a k else 0).
Proof.
  unfold ledger_total, ledger_of, get_balance; simpl.
  rewrite sum_map_insert. unfold ledger_entry; simpl.
  destruct (account_balances d !! (a, k)); simpl; case_decide; lia.
Qed.

Lemma ledger_total_adjust d a delta d' k :
  adjust_balance d a delta = Ok d' ->
  ledger_total k d'
  = ledger_total k d + (if decide (asset_id delta = k) then amount delta else 0).
Proof.
  intros [_ ->]%adjust_balance_Ok.
  rewrite ledger_total_insert. case_decide; lia.
Qed.

(** ** What a successful operation does *)

Ltac pass_checks :=
  repeat first
    [ rewrite bool_decide_eq_true_2 by (assumption || congruence)
    | match goal with
      | |- context [?a <=? ?b] =>
          rewrite (proj2 (Z.leb_le a b)) by (assumption || lia)
      | |- context [@decide (?x ∈ ?s) ?i] =>
          rewrite (@decide_True _ (x ∈ s) i) by assumption
      end
    | progress simpl ].

Lemma create_evaluate_Ok d o d' r :
  evaluate d (Create o) = Ok (d', r) <->
  create_owner o ∈ account_index d
  /\ asset_id (create_initial_deposit o) ∈ asset_index d
  /\ amount (create_initial_deposit o)
     <= ledger_of d (create_owner o) (asset_id (create_initial_deposit o))
  /\ r = object_id_result (next_balance_id d)
  /\ d' = set_balances
            (<[next_balance_id d
               := mk_balance (create_owner o) (create_initial_deposit o)
                    (create_review_period_seconds o)]>
               (time_lock_balance_index d))
            (N.succ (next_balance_id d))
            (set_account_balances
               (<[(create_owner o, asset_id (create_initial_deposit o))
                  := ledger_of d (create_owner o)
                       (asset_id (create_initial_deposit o))
                     - amount (create_initial_deposit o)]>
                  (account_balances d)) d).
Proof.
  unfold evaluate; simpl. unfold create_do_evaluate, create_do_apply.
  split.
  - intros He. ok_inv.
    match goal with H : adjust_balance _ _ _ = Ok _ |- _ =>
      apply adjust_balance_Ok in H; destruct H as [_ ->] end.
    match goal with H : create_balance _ _ = _ |- _ =>
      unfold create_balance in H; injection H as <- <- end.
    subst. simpl. rewrite Z.add_opp_r. auto.
  - intros (Ho & Ha & Hq & -> & ->).
    unfold get_account, get_asset. pass_checks.
    fold (ledger_of d (create_owner o) (asset_id (create_initial_deposit o))).
    pass_checks.
    destruct (adjust_balance d (create_owner o)
                (asset_neg (create_initial_deposit o))) as [d1|e] eqn:Hadj.
    + apply adjust_balance_Ok in Hadj as [_ ->]. simpl.
      rewrite Z.add_opp_r. reflexivity.
    + exfalso.
      assert (Hok : exists d1,
                adjust_balance d (create_owner o)
                  (asset_neg (create_initial_deposit o)) = Ok d1).
      { eexists. apply adjust_balance_Ok. split; [|reflexivity].
        simpl. lia. }
      destruct Hok as [d1 Hd1]. congruence.
Qed.

Lemma adjust_balance_eq d a delta :
  (amount delta < 0 -> 0 <= ledger_of d a (asset_id delta) + amount delta) ->
  adjust_balance d a delta
  = Ok (set_account_balances
          (<[(a, asset_id delta)
             := ledger_of d a (asset_id delta) + amount delta]>
             (account_balances d)) d).
Proof. intros Hc. apply adjust_balance_Ok. split; [exact Hc | reflexivity]. Qed.

Lemma deposit_evaluate_Ok d o d' r :
  evaluate d (Deposit o) = Ok (d', r) <->
  exists b,
    time_lock_balance_index d !! deposit_balance o = Some b
    /\ tlb_owner b = deposit_owner o
    /\ asset_id (tlb_amount b) = asset_id (deposit_deposit o)
    /\ deposit_owner o ∈ account_index d
    /\ amount (deposit_deposit o)
       <= ledger_of d (deposit_owner o) (asset_id (deposit_deposit o))
    /\ r = void_result
    /\ d' = modify_balance
              (set_account_balances
                 (<[(deposit_owner o, asset_id (deposit_deposit o))
                    := ledger_of d (deposit_owner o)
                         (asset_id (deposit_deposit o))
                       - amount (deposit_deposit o)]>
                    (account_balances d)) d)
              (deposit_balance o) (balance_plus (deposit_deposit o)).
Proof.
  unfold evaluate; simpl. unfold deposit_do_evaluate, deposit_do_apply.
  split.
  - intros He. ok_inv.
    match goal with H : adjust_balance _ _ _ = Ok _ |- _ =>
      apply adjust_balance_Ok in H; destruct H as [_ ->] end.
    subst. simpl. rewrite Z.add_opp_r. eauto 10.
  - intros (b & Hb & Ho & Ha & Hacc & Hq & -> & ->).
    unfold get_time_lock_balance, get_account. rewrite Hb. pass_checks.
    fold (ledger_of d (deposit_owner o) (asset_id (deposit_deposit o))).
    pass_checks.
    rewrite adjust_balance_eq by (simpl; lia). simpl.
    rewrite Hb. simpl. rewrite Z.add_opp_r. reflexivity.
Qed.

Lemma withdraw_do_evaluate_Ok d o :
  do_evaluate d (RequestWithdrawal o) = Ok tt <->
  exists b,
    time_lock_balance_index d !! withdraw_balance o = Some b
    /\ tlb_owner b = withdraw_owner o
    /\ asset_id (withdraw_withdrawal o) = asset_id (tlb_amount b)
    /\ withdraw_owner o ∈ account_index d
    /\ withdraw_recipient o ∈ account_index d.
Proof.
  simpl. unfold withdraw_do_evaluate. split.
  - intros He. ok_inv. eauto 10.
  - intros (b & Hb & Ho & Ha & Hacc & Hrec).
    unfold get_time_lock_balance, get_account. rewrite Hb. pass_checks.
    reflexivity.
Qed.

Lemma withdraw_evaluate_Ok d o d' r :
  evaluate d (RequestWithdrawal o) = Ok (d', r) <->
  exists b,
    time_lock_balance_index d !! withdraw_balance o = Some b
    /\ tlb_owner b = withdraw_owner o
    /\ asset_id (withdraw_withdrawal o) = asset_id (tlb_amount b)
    /\ withdraw_owner o ∈ account_index d
    /\ withdraw_recipient o ∈ account_index d
    /\ r = object_id_result (next_withdrawal_id d)
    /\ d' = set_withdrawals
              (<[next_withdrawal_id d
                 := mk_withdrawal (withdraw_balance o)
                      (amount (withdraw_withdrawal o)) (withdraw_recipient o)
                      (head_block_time d + tlb_review_period_seconds b)]>
                 (time_lock_withdrawal_index d))
              (N.succ (next_withdrawal_id d)) d.
Proof.
  unfold evaluate. split.
  - intros He. apply bind_Ok in He as ([] & Hev & Hap).
    apply withdraw_do_evaluate_Ok in Hev as (b & Hb & Ho & Ha & Hacc & Hrec).
    simpl in Hap. unfold withdraw_do_apply, get_time_lock_balance in Hap.
    rewrite Hb in Hap. simpl in Hap. injection Hap as <- <-. eauto 10.
  - intros (b & Hb & Ho & Ha & Hacc & Hrec & -> & ->).
    rewrite (proj2 (withdraw_do_evaluate_Ok d o)) by eauto 10.
    simpl. unfold withdraw_do_apply, get_time_lock_balance.
    rewrite Hb. reflexivity.
Qed.

Lemma abort_do_evaluate_Ok d o :
  do_evaluate d (AbortWithdrawal o) = Ok tt <->
  exists w b,
    time_lock_withdrawal_index d !! abort_withdrawal o = Some w
    /\ time_lock_balance_index d !! tlw_balance w = Some b
    /\ abort_owner o = tlb_owner b.
Proof.
  simpl. unfold abort_withdrawal_do_evaluate. split.
  - intros He. ok_inv. eauto 10.
  - intros (w & b & Hw & Hb & Ho).
    unfold get_time_lock_withdrawal, get_time_lock_balance.
    rewrite Hw. simpl. rewrite Hb. pass_checks. reflexivity.
Qed.

Lemma abort_evaluate_Ok d o d' r :
  evaluate d (AbortWithdrawal o) = Ok (d', r) <->
  exists w b,
    time_lock_withdrawal_index d !! abort_withdrawal o = Some w
    /\ time_lock_balance_index d !! tlw_balance w = Some b
    /\ abort_owner o = tlb_owner b
    /\ r = void_result
    /\ d' = remove_withdrawal d (abort_withdrawal o).
Proof.
  unfold evaluate. split.
  - intros He. apply bind_Ok in He as ([] & Hev & Hap).
    apply abort_do_evaluate_Ok in Hev as (w & b & Hw & Hb & Ho).
    simpl in Hap. unfold abort_withdrawal_do_apply, get_time_lock_withdrawal in Hap.
    rewrite Hw in Hap. simpl in Hap. injection Hap as <- <-. eauto 10.
  - intros (w & b & Hw & Hb & Ho & -> & ->).
    rewrite (proj2 (abort_do_evaluate_Ok d o)) by eauto 10.
    simpl. unfold abort_withdrawal_do_apply, get_time_lock_withdrawal.
    rewrite Hw. reflexivity.
Qed.

Lemma complete_do_evaluate_Ok d o :
  do_evaluate d (CompleteWithdrawal o) = Ok tt <->
  exists w b,
    time_lock_withdrawal_index d !! complete_withdrawal o = Some w
    /\ time_lock_balance_index d !! tlw_balance w = Some b
    /\ tlw_finalize_date w <= head_block_time d
    /\ amount (complete_amount o) <= amount (tlb_amount b)
    /\ (complete_acting_account o = tlb_owner b
        \/ complete_acting_account o = tlw_recipient w)
    /\ complete_recipient o = tlw_recipient w
    /\ amount (complete_amount o) = tlw_withdrawal w
    /\ asset_id (complete_amount o) = asset_id (tlb_amount b).
Proof.
  simpl. unfold complete_withdrawal_do_evaluate, asset_ge. split.
  - intros He. ok_inv.
    match goal with H : (_ || _) = true |- _ =>
      apply orb_true_iff in H;
      rewrite !bool_decide_eq_true in H end.
    eauto 12.
  - intros (w & b & Hw & Hb & Ht & Hq & Hact & Hrec & Hamt & Hk).
    unfold get_time_lock_withdrawal, get_time_lock_balance.
    rewrite Hw. simpl. rewrite Hb. pass_checks.
    assert (Hor : bool_decide (complete_acting_account o = tlb_owner b)
                  || bool_decide (complete_acting_account o = tlw_recipient w)
                  = true).
    { apply orb_true_iff. rewrite !bool_decide_eq_true. exact Hact. }
    rewrite Hor. pass_checks. reflexivity.
Qed.

Lemma complete_evaluate_Ok d o d' r :
  evaluate d (CompleteWithdrawal o) = Ok (d', r) <->
  exists w b,
    time_lock_withdrawal_index d !! complete_withdrawal o = Some w
    /\ time_lock_balance_index d !! tlw_balance w = Some b
    /\ tlw_finalize_date w <= head_block_time d
    /\ amount (complete_amount o) <= amount (tlb_amount b)
    /\ (complete_acting_account o = tlb_owner b
        \/ complete_acting_account o = tlw_recipient w)
    /\ complete_recipient o = tlw_recipient w
    /\ amount (complete_amount o) = tlw_withdrawal w
    /\ asset_id (complete_amount o) = asset_id (tlb_amount b)
    /\ (amount (complete_amount o) < 0 ->
        0 <= ledger_of d (complete_recipient o) (asset_id (complete_amount o))
             + amount (complete_amount o))
    /\ r = void_result
    /\ d' = remove_withdrawal
              (set_account_balances
                 (<[(complete_recipient o, asset_id (complete_amount o))
                    := ledger_of d (complete_recipient o)
                         (asset_id (complete_amount o))
                       + amount (complete_amount o)]>
                    (account_balances d))
                 (modify_balance d (tlw_balance w)
                    (balance_minus (complete_amount o))))
              (complete_withdrawal o).
Proof.
  unfold evaluate. split.
  - intros He. apply bind_Ok in He as ([] & Hev & Hap).
    apply complete_do_evaluate_Ok in Hev
      as (w & b & Hw & Hb & Ht & Hq & Hact & Hrec & Hamt & Hk).
    simpl in Hap.
    unfold complete_withdrawal_do_apply, get_time_lock_withdrawal,
      get_time_lock_balance in Hap.
    rewrite Hw in Hap. simpl in Hap. rewrite Hb in Hap. simpl in Hap.
    apply bind_Ok in Hap as (d2 & Hadj & Hap).
    apply adjust_balance_Ok in Hadj as [Hc ->].
    injection Hap as <- <-.
    exists w, b. split_and!; try assumption; try reflexivity.
  - intros (w & b & Hw & Hb & Ht & Hq & Hact & Hrec & Hamt & Hk & Hc & -> & ->).
    rewrite (proj2 (complete_do_evaluate_Ok d o)) by eauto 12.
    simpl.
    unfold complete_withdrawal_do_apply, get_time_lock_withdrawal,
      get_time_lock_balance.
    rewrite Hw. simpl. rewrite Hb. simpl.
    rewrite adjust_balance_eq by exact Hc. reflexivity.
Qed.

(** [apply_operation] succeeds exactly when the stateless validation passes
    and the evaluator succeeds. *)
Lemma apply_operation_Ok d op d' r :
  apply_operation d op = (d', Ok r) <->
  validate op = Ok tt /\ evaluate d op = Ok (d', r).
Proof.
  unfold apply_operation.
  destruct (validate op) as [[]|e]; simpl.
  - destruct (evaluate d op) as [[d1 r1]|e]; split.
    + intros Hp. injection Hp as <- <-. split; reflexivity.
    + intros [_ He]. injection He as <- <-. reflexivity.
    + discriminate.
    + intros [_ He]. discriminate.
  - split; [discriminate | intros [Hv _]; discriminate].
Qed.

Lemma apply_operation_Err d op d' e :
  apply_operation d op = (d', Err e) -> d' = d.
Proof.
  unfold apply_operation.
  destruct (check! validate op in evaluate d op) as [[d1 r1]|e1].
  - discriminate.
  - intros Hp. injection Hp as <- _. reflexivity.
Qed.

(** ** Stateless validation *)

Lemma fc_assert_bind_Ok c e (k : result unit) :
  (check! fc_assert c e in k) = Ok tt <-> c = true /\ k = Ok tt.
Proof.
  destruct c; simpl; split.
  - intros Hk. split; [reflexivity | exact Hk].
  - intros [_ Hk]. exact Hk.
  - discriminate.
  - intros [Hc _]. discriminate.
Qed.

Lemma validate_Err op e : validate op = Err e -> e = InvalidArgument.
Proof.
  destruct op as [o|o|o|o|o]; simpl;
    unfold create_validate, deposit_validate, withdraw_validate,
      abort_withdrawal_validate, complete_withdrawal_validate, fc_assert;
    repeat (match goal with |- context [if ?c then _ else _] => destruct c end;
            simpl);
    congruence.
Qed.

Lemma abort_validate_Ok o :
  validate (AbortWithdrawal o) = Ok tt <-> 0 <= amount (abort_fee o).
Proof.
  simpl. unfold abort_withdrawal_validate. rewrite fc_assert_Ok.
  apply Z.leb_le.
Qed.

Lemma complete_validate_Ok o :
  validate (CompleteWithdrawal o) = Ok tt <->
  0 <= amount (complete_fee o) /\ 0 < amount (complete_amount o).
Proof.
  simpl. unfold complete_withdrawal_validate.
  rewrite fc_assert_bind_Ok, fc_assert_Ok, Z.leb_le, Z.ltb_lt. reflexivity.
Qed.

Lemma create_validate_Ok o :
  validate (Create o) = Ok tt <->
  0 < amount (create_fee o)
  /\ 0 <= amount (create_initial_deposit o)
  /\ 0 < create_review_period_seconds o.
Proof.
  simpl. unfold create_validate.
  rewrite !fc_assert_bind_Ok, fc_assert_Ok, Z.leb_le, !Z.ltb_lt. reflexivity.
Qed.

Lemma deposit_validate_Ok o :
  validate (Deposit o) = Ok tt <->
  0 < amount (deposit_fee o) /\ 0 < amount (deposit_deposit o).
Proof.
  simpl. unfold deposit_validate.
  rewrite fc_assert_bind_Ok, fc_assert_Ok, !Z.ltb_lt. reflexivity.
Qed.

Lemma withdraw_validate_Ok o :
  validate (RequestWithdrawal o) = Ok tt <->
  0 < amount (withdraw_fee o) /\ 0 < amount (withdraw_withdrawal o).
Proof.
  simpl. unfold withdraw_validate.
  rewrite fc_assert_bind_Ok, fc_assert_Ok, !Z.ltb_lt. reflexivity.
Qed.

Lemma create_do_evaluate_Ok d o :
  do_evaluate d (Create o) = Ok tt <->
  create_owner o ∈ account_index d
  /\ asset_id (create_initial_deposit o) ∈ asset_index d
  /\ amount (create_initial_deposit o)
     <= ledger_of d (create_owner o) (asset_id (create_initial_deposit o)).
Proof.
  simpl. unfold create_do_evaluate. split.
  - intros He. ok_inv. auto.
  - intros (Ho & Ha & Hq).
    unfold get_account, get_asset. pass_checks.
    fold (ledger_of d (create_owner o) (asset_id (create_initial_deposit o))).
    pass_checks. reflexivity.
Qed.

Lemma deposit_do_evaluate_Ok d o :
  do_evaluate d (Deposit o) = Ok tt <->
  exists b,
    time_lock_balance_index d !! deposit_balance o = Some b
    /\ tlb_owner b = deposit_owner o
    /\ asset_id (tlb_amount b) = asset_id (deposit_deposit o)
    /\ deposit_owner o ∈ account_index d
    /\ amount (deposit_deposit o)
       <= ledger_of d (deposit_owner o) (asset_id (deposit_deposit o)).
Proof.
  simpl. unfold deposit_do_evaluate. split.
  - intros He. ok_inv. eauto 10.
  - intros (b & Hb & Ho & Ha & Hacc & Hq).
    unfold get_time_lock_balance, get_account. rewrite Hb. pass_checks.
    fold (ledger_of d (deposit_owner o) (asset_id (deposit_deposit o))).
    pass_checks. reflexivity.
Qed.

(** Once the stateless validation and the evaluation passed, applying the
    operation does not fail. *)
Lemma evaluate_total d op :
  validate op = Ok tt -> do_evaluate d op = Ok tt ->
  exists d' r, evaluate d op = Ok (d', r).
Proof.
  intros Hv Hev. destruct op as [o|o|o|o|o].
  - apply create_do_evaluate_Ok in Hev as (Ho & Ha & Hq).
    eexists _, _. apply create_evaluate_Ok. split_and!; eauto.
  - apply deposit_do_evaluate_Ok in Hev as (b & Hb & Ho & Ha & Hacc & Hq).
    eexists _, _. apply deposit_evaluate_Ok. exists b. split_and!; eauto.
  - apply withdraw_do_evaluate_Ok in Hev as (b & Hb & Ho & Ha & Hacc & Hrec).
    eexists _, _. apply withdraw_evaluate_Ok. exists b. split_and!; eauto.
  - apply abort_do_evaluate_Ok in Hev as (w & b & Hw & Hb & Ho).
    eexists _, _. apply abort_evaluate_Ok. exists w, b. split_and!; eauto.
  - apply complete_validate_Ok in Hv as [_ Hpos].
    apply complete_do_evaluate_Ok in Hev
      as (w & b & Hw & Hb & Ht & Hq & Hact & Hrec & Hamt & Hk).
    eexists _, _. apply complete_evaluate_Ok. exists w, b.
    split_and!; eauto. intros Hneg. lia.
Qed.

Lemma evaluate_do_evaluate d op d' r :
  evaluate d op = Ok (d', r) -> do_evaluate d op = Ok tt.
Proof.
  unfold evaluate. intros He. apply bind_Ok in He as ([] & Hev & _). exact Hev.
Qed.

(** ** The database invariants are kept *)

Lemma store_wf_genesis accounts assets ledger now :
  store_wf (genesis accounts assets ledger now).
Proof. split; simpl; apply map_Forall_empty. Qed.

Lemma balances_nonneg_genesis accounts assets ledger now :
  balances_nonneg (genesis accounts assets ledger now).
Proof. unfold balances_nonneg; simpl. apply map_Forall_empty. Qed.

Lemma store_wf_fresh_balance d :
  store_wf d -> time_lock_balance_index d !! next_balance_id d = None.
Proof.
  intros [Hb _].
  destruct (time_lock_balance_index d !! next_balance_id d) as [b|] eqn:Hn;
    [|reflexivity].
  apply Hb in Hn as [Hlt _]. lia.
Qed.

Lemma store_wf_fresh_withdrawal d :
  store_wf d -> time_lock_withdrawal_index d !! next_withdrawal_id d = None.
Proof.
  intros [_ Hw].
  destruct (time_lock_withdrawal_index d !! next_withdrawal_id d) as [w|] eqn:Hn;
    [|reflexivity].
  apply Hw in Hn as [Hlt _]. lia.
Qed.

Lemma store_wf_evaluate d op d' r :
  store_wf d -> evaluate d op = Ok (d', r) -> store_wf d'.
Proof.
  intros [Hbs Hws] He. destruct op as [o|o|o|o|o].
  - apply create_evaluate_Ok in He as (Ho & Ha & Hq & -> & ->).
    split; simpl.
    + intros i x [[<- <-]|[Hne Hix]]%lookup_insert_Some; simpl.
      * split; [lia | exact Ho].
      * apply Hbs in Hix as [Hlt Hin]. split; [lia | exact Hin].
    + intros i x Hix. apply Hws in Hix as [Hlt Hsome].
      split; [exact Hlt|]. apply lookup_insert_is_Some'. right. exact Hsome.
  - apply deposit_evaluate_Ok in He as (b & Hb & Ho & Ha & Hacc & Hq & -> & ->).
    split; simpl.
    + intros i x [[<- (y & Hy & ->)]|[Hne Hix]]%lookup_alter_Some; simpl.
      * apply Hbs in Hy. exact Hy.
      * apply Hbs in Hix. exact Hix.
    + intros i x Hix. apply Hws in Hix as [Hlt Hsome].
      split; [exact Hlt|]. apply lookup_alter_is_Some. exact Hsome.
  - apply withdraw_evaluate_Ok in He
      as (b & Hb & Ho & Ha & Hacc & Hrec & -> & ->).
    split; simpl.
    + exact Hbs.
    + intros i x [[<- <-]|[Hne Hix]]%lookup_insert_Some; simpl.
      * split; [lia | eauto].
      * apply Hws in Hix as [Hlt Hsome]. split; [lia | exact Hsome].
  - apply abort_evaluate_Ok in He as (w & b & Hw & Hb & Ho & -> & ->).
    split; simpl.
    + exact Hbs.
    + intros i x [Hne Hix]%lookup_delete_Some. apply Hws in Hix. exact Hix.
  - apply complete_evaluate_Ok in He
      as (w & b & Hw & Hb & Ht & Hq & Hact & Hrec & Hamt & Hk & Hc & -> & ->).
    split; simpl.
    + intros i x [[<- (y & Hy & ->)]|[Hne Hix]]%lookup_alter_Some; simpl.
      * apply Hbs in Hy. exact Hy.
      * apply Hbs in Hix. exact Hix.
    + intros i x [Hne Hix]%lookup_delete_Some.
      apply Hws in Hix as [Hlt Hsome].
      split; [exact Hlt|]. apply lookup_alter_is_Some. exact Hsome.
Qed.

Lemma store_wf_exec d s : store_wf d -> store_wf (exec d s).
Proof.
  intros Hwf. destruct s as [op|t]; simpl.
  - destruct (apply_operation d op) as [d' [r|e]] eqn:Hap; simpl.
    + apply apply_operation_Ok in Hap as [_ He].
      exact (store_wf_evaluate _ _ _ _ Hwf He).
    + apply apply_operation_Err in Hap as ->. exact Hwf.
  - exact Hwf.
Qed.

Lemma store_wf_run steps d : store_wf d -> store_wf (run d steps).
Proof.
  revert d. induction steps as [|s steps IH]; intros d Hwf; simpl.
  - exact Hwf.
  - apply IH, store_wf_exec, Hwf.
Qed.

(** Every database reached from a genesis database is well formed. *)
Lemma store_wf_reachable accounts assets ledger now steps :
  store_wf (run (genesis accounts assets ledger now) steps).
Proof. apply store_wf_run, store_wf_genesis. Qed.

Lemma balances_nonneg_apply d op d' r :
  balances_nonneg d -> apply_operation d op = (d', Ok r) ->
  balances_nonneg d'.
Proof.
  intros Hnn [Hv He]%apply_operation_Ok. unfold balances_nonneg in *.
  destruct op as [o|o|o|o|o]; simpl in Hv.
  - apply create_evaluate_Ok in He as (Ho & Ha & Hq & -> & ->).
    unfold create_validate in Hv. ok_inv. simpl.
    intros i bx [[<- <-]|[Hne Hix]]%lookup_insert_Some; simpl.
    + assumption.
    + exact (Hnn _ _ Hix).
  - apply deposit_evaluate_Ok in He as (b & Hb & Ho & Ha & Hacc & Hq & -> & ->).
    unfold deposit_validate in Hv. ok_inv. simpl.
    intros i bx [[<- (y & Hy & ->)]|[Hne Hix]]%lookup_alter_Some; simpl.
    + apply Hnn in Hy. lia.
    + exact (Hnn _ _ Hix).
  - apply withdraw_evaluate_Ok in He
      as (b & Hb & Ho & Ha & Hacc & Hrec & -> & ->).
    exact Hnn.
  - apply abort_evaluate_Ok in He as (w & b & Hw & Hb & Ho & -> & ->).
    exact Hnn.
  - apply complete_evaluate_Ok in He
      as (w & b & Hw & Hb & Ht & Hq & Hact & Hrec & Hamt & Hk & Hc & -> & ->).
    simpl.
    intros i bx [[<- (y & Hy & ->)]|[Hne Hix]]%lookup_alter_Some; simpl.
    + rewrite Hb in Hy. injection Hy as <-. lia.
    + exact (Hnn _ _ Hix).
Qed.

(** ** Funds are conserved *)

Lemma locked_total_insert_fresh d id b n k :
  time_lock_balance_index d !! id = None ->
  locked_total k (set_balances (<[id := b]> (time_lock_balance_index d)) n d)
  = locked_total k d
    + (if decide (asset_type b = k) then amount (tlb_amount b) else 0).
Proof.
  intros Hid. unfold locked_total; simpl.
  rewrite sum_map_insert_fresh by exact Hid. unfold locked_entry. lia.
Qed.

Lemma locked_total_modify d id b g k :
  time_lock_balance_index d !! id = Some b ->
  asset_type (g b) = asset_type b ->
  locked_total k (modify_balance d id g)
  = locked_total k d
    + (if decide (asset_type b = k)
       then amount (tlb_amount (g b)) - amount (tlb_amount b) else 0).
Proof.
  intros Hid Hk. unfold locked_total, modify_balance; simpl.
  rewrite (sum_map_alter _ _ g id b Hid). unfold locked_entry.
  rewrite Hk. case_decide; lia.
Qed.

Lemma total_funds_evaluate d op d' r k :
  store_wf d -> evaluate d op = Ok (d', r) ->
  total_funds k d' = total_funds k d.
Proof.
  intros Hwf He. unfold total_funds. destruct op as [o|o|o|o|o].
  - apply create_evaluate_Ok in He as (Ho & Ha & Hq & -> & ->).
    pose proof (store_wf_fresh_balance d Hwf) as Hfresh.
    match goal with |- ledger_total k (set_balances ?m ?n ?d1) + _ = _ =>
      change (ledger_total k (set_balances m n d1)) with (ledger_total k d1)
    end.
    rewrite ledger_total_insert.
    match goal with |- _ + locked_total k (set_balances ?m ?n ?d1) = _ =>
      change (locked_total k (set_balances m n d1))
        with (locked_total k (set_balances m n d))
    end.
    rewrite locked_total_insert_fresh by exact Hfresh.
    unfold asset_type; simpl. repeat case_decide; try congruence; lia.
  - apply deposit_evaluate_Ok in He as (b & Hb & Ho & Ha & Hacc & Hq & -> & ->).
    match goal with |- ledger_total k (modify_balance ?d1 ?i ?g) + _ = _ =>
      change (ledger_total k (modify_balance d1 i g)) with (ledger_total k d1)
    end.
    rewrite ledger_total_insert.
    match goal with |- _ + locked_total k (modify_balance ?d1 ?i ?g) = _ =>
      change (locked_total k (modify_balance d1 i g))
        with (locked_total k (modify_balance d i g))
    end.
    rewrite (locked_total_modify d _ b) by (exact Hb || reflexivity).
    unfold asset_type; simpl. repeat case_decide; try congruence; lia.
  - apply withdraw_evaluate_Ok in He
      as (b & Hb & Ho & Ha & Hacc & Hrec & -> & ->).
    reflexivity.
  - apply abort_evaluate_Ok in He as (w & b & Hw & Hb & Ho & -> & ->).
    reflexivity.
  - apply complete_evaluate_Ok in He
      as (w & b & Hw & Hb & Ht & Hq & Hact & Hrec & Hamt & Hk & Hc & -> & ->).
    match goal with
    | |- ledger_total k (remove_withdrawal (set_account_balances ?l ?d1) ?i)
         + _ = _ =>
      change (ledger_total k (remove_withdrawal (set_account_balances l d1) i))
        with (ledger_total k (set_account_balances l d));
      change (locked_total k (remove_withdrawal (set_account_balances l d1) i))
        with (locked_total k d1)
    end.
    rewrite ledger_total_insert.
    rewrite (locked_total_modify d _ b) by (exact Hb || reflexivity).
    unfold asset_type; simpl. repeat case_decide; try congruence; lia.
Qed.

Lemma total_funds_exec d s k :
  store_wf d -> total_funds k (exec d s) = total_funds k d.
Proof.
  intros Hwf. destruct s as [op|t]; simpl.
  - destruct (apply_operation d op) as [d' [r|e]] eqn:Hap; simpl.
    + apply apply_operation_Ok in Hap as [_ He].
      exact (total_funds_evaluate _ _ _ _ k Hwf He).
    + apply apply_operation_Err in Hap as ->. reflexivity.
  - reflexivity.
Qed.

Lemma total_funds_run steps d k :
  store_wf d -> total_funds k (run d steps) = total_funds k d.
Proof.
  revert d. induction steps as [|s steps IH]; intros d Hwf; simpl.
  - reflexivity.
  - rewrite IH by apply store_wf_exec, Hwf. apply total_funds_exec, Hwf.
Qed.

Lemma locked_of_modify d id g b :
  time_lock_balance_index d !! id = Some b ->
  locked_of (modify_balance d id g) id = amount (tlb_amount (g b)).
Proof.
  intros Hb. unfold locked_of, modify_balance; simpl.
  rewrite lookup_alter_eq, Hb. reflexivity.
Qed.

Lemma funds_moved_evaluate d op d' r :
  store_wf d -> evaluate d op = Ok (d', r) -> funds_moved d op d'.
Proof.
  intros Hwf He. destruct op as [o|o|o|o|o]; simpl.
  - apply create_evaluate_Ok in He as (Ho & Ha & Hq & -> & ->).
    pose proof (store_wf_fresh_balance d Hwf) as Hfresh.
    split_and!.
    + change (ledger_of (set_balances ?m ?n ?d1) ?a ?k) with (ledger_of d1 a k).
      rewrite ledger_of_insert, decide_True by reflexivity. reflexivity.
    + unfold locked_of. rewrite Hfresh. reflexivity.
    + unfold locked_of; simpl. rewrite lookup_insert_eq. reflexivity.
    + intros a' k' Hne.
      change (ledger_of (set_balances ?m ?n ?d1) ?a ?k) with (ledger_of d1 a k).
      rewrite ledger_of_insert, decide_False by congruence. reflexivity.
    + intros id' Hne; simpl. rewrite lookup_insert_ne by congruence.
      reflexivity.
  - apply deposit_evaluate_Ok in He as (b & Hb & Ho & Ha & Hacc & Hq & -> & ->).
    split_and!.
    + change (ledger_of (modify_balance ?d1 ?i ?g) ?a ?k) with (ledger_of d1 a k).
      rewrite ledger_of_insert, decide_True by reflexivity. reflexivity.
    + unfold locked_of at 2. rewrite Hb. simpl.
      unfold locked_of, modify_balance; simpl.
      rewrite lookup_alter_eq, Hb. reflexivity.
    + intros a' k' Hne.
      change (ledger_of (modify_balance ?d1 ?i ?g) ?a ?k) with (ledger_of d1 a k).
      rewrite ledger_of_insert, decide_False by congruence. reflexivity.
    + intros id' Hne; simpl. rewrite lookup_alter_ne by congruence.
      reflexivity.
  - apply withdraw_evaluate_Ok in He
      as (b & Hb & Ho & Ha & Hacc & Hrec & -> & ->).
    split; reflexivity.
  - apply abort_evaluate_Ok in He as (w & b & Hw & Hb & Ho & -> & ->).
    split; reflexivity.
  - apply complete_evaluate_Ok in He
      as (w & b & Hw & Hb & Ht & Hq & Hact & Hrec & Hamt & Hk & Hc & -> & ->).
    exists w. split_and!.
    + exact Hw.
    + change (ledger_of (remove_withdrawal (set_account_balances ?l ?d1) ?i) ?a ?k)
        with (ledger_of (set_account_balances l d) a k).
      rewrite ledger_of_insert, decide_True by reflexivity. reflexivity.
    + unfold locked_of at 2. rewrite Hb. simpl.
      unfold locked_of; simpl. rewrite lookup_alter_eq, Hb. reflexivity.
    + intros a' k' Hne.
      change (ledger_of (remove_withdrawal (set_account_balances ?l ?d1) ?i) ?a ?k)
        with (ledger_of (set_account_balances l d) a k).
      rewrite ledger_of_insert, decide_False by congruence. reflexivity.
    + intros id' Hne; simpl. rewrite lookup_alter_ne by congruence.
      reflexivity.
Qed.

(** C1.  Funds are conserved.  An operation that passed its stateless
    validation and its evaluation is applied without failure, and the total of
    each asset kind over the ledger and the time-lock balances is unchanged
    (fees are charged elsewhere): Create and Deposit take from the owner's
    ledger entry exactly the quantity the time-lock balance gains,
    CompleteWithdrawal adds to the recipient's ledger entry exactly the
    quantity the time-lock balance loses, RequestWithdrawal and
    AbortWithdrawal leave the ledger and the balances as they are, and nothing
    else changes; hence the total is the same after any history of operations
    and blocks. *)
Theorem fund_conservation (d : database) (op : operation) :
  store_wf d ->
  validate op = Ok tt ->
  do_evaluate d op = Ok tt ->
  (exists d' r,
     do_apply d op = Ok (d', r)
     /\ apply_operation d op = (d', Ok r)
     /\ (forall k, total_funds k d' = total_funds k d)
     /\ funds_moved d op d')
  /\ (forall steps k, total_funds k (run d steps) = total_funds k d).
Proof.
  intros Hwf Hv Hev. split.
  - destruct (evaluate_total d op Hv Hev) as (d' & r & He).
    exists d', r. split_and!.
    + unfold evaluate in He. rewrite Hev in He. exact He.
    + apply apply_operation_Ok. split; [exact Hv | exact He].
    + intros k. exact (total_funds_evaluate d op d' r k Hwf He).
    + exact (funds_moved_evaluate d op d' r Hwf He).
  - intros steps k. exact (total_funds_run steps d k Hwf).
Qed.

(** ** Time-lock balances persist *)

Lemma balances_kept_same d d' :
  time_lock_balance_index d' = time_lock_balance_index d -> balances_kept d d'.
Proof. intros Heq id b Hb. exists b. rewrite Heq. auto. Qed.

Lemma balances_kept_refl d : balances_kept d d.
Proof. apply balances_kept_same. reflexivity. Qed.

Lemma balances_kept_trans d1 d2 d3 :
  balances_kept d1 d2 -> balances_kept d2 d3 -> balances_kept d1 d3.
Proof.
  intros H12 H23 id b Hb.
  destruct (H12 id b Hb) as (b2 & Hb2 & Ho2 & Ha2 & Hr2).
  destruct (H23 id b2 Hb2) as (b3 & Hb3 & Ho3 & Ha3 & Hr3).
  exists b3. split_and!; [assumption | congruence..].
Qed.

Lemma balances_kept_modify d id g :
  (forall b, tlb_owner (g b) = tlb_owner b
             /\ asset_type (g b) = asset_type b
             /\ tlb_review_period_seconds (g b) = tlb_review_period_seconds b) ->
  balances_kept d (modify_balance d id g).
Proof.
  intros Hg id' b Hb; simpl.
  destruct (decide (id = id')) as [<-|Hne].
  - exists (g b). rewrite lookup_alter_eq, Hb. split; [reflexivity | apply Hg].
  - exists b. rewrite lookup_alter_ne by exact Hne. auto.
Qed.

Lemma balances_kept_evaluate d op d' r :
  store_wf d -> evaluate d op = Ok (d', r) -> balances_kept d d'.
Proof.
  intros Hwf He. destruct op as [o|o|o|o|o].
  - apply create_evaluate_Ok in He as (Ho & Ha & Hq & -> & ->).
    pose proof (store_wf_fresh_balance d Hwf) as Hfresh.
    intros id b Hb. exists b. simpl.
    rewrite lookup_insert_ne by congruence. auto.
  - apply deposit_evaluate_Ok in He as (b & Hb & Ho & Ha & Hacc & Hq & -> & ->).
    intros id' b' Hb'.
    apply (balances_kept_modify d (deposit_balance o)
             (balance_plus (deposit_deposit o))
             (fun b0 => conj eq_refl (conj eq_refl eq_refl)) id' b' Hb').
  - apply withdraw_evaluate_Ok in He
      as (b & Hb & Ho & Ha & Hacc & Hrec & -> & ->).
    apply balances_kept_same. reflexivity.
  - apply abort_evaluate_Ok in He as (w & b & Hw & Hb & Ho & -> & ->).
    apply balances_kept_same. reflexivity.
  - apply complete_evaluate_Ok in He
      as (w & b & Hw & Hb & Ht & Hq & Hact & Hrec & Hamt & Hk & Hc & -> & ->).
    intros id' b' Hb'.
    apply (balances_kept_modify d (tlw_balance w)
             (balance_minus (complete_amount o))
             (fun b0 => conj eq_refl (conj eq_refl eq_refl)) id' b' Hb').
Qed.

Lemma balances_exec d s :
  store_wf d -> balances_nonneg d ->
  balances_nonneg (exec d s) /\ balances_kept d (exec d s).
Proof.
  intros Hwf Hnn. destruct s as [op|t]; simpl.
  - destruct (apply_operation d op) as [d' [r|e]] eqn:Hap; simpl.
    + split; [exact (balances_nonneg_apply _ _ _ _ Hnn Hap)|].
      apply apply_operation_Ok in Hap as [_ He].
      exact (balances_kept_evaluate _ _ _ _ Hwf He).
    + apply apply_operation_Err in Hap as ->.
      split; [exact Hnn | apply balances_kept_refl].
  - split; [exact Hnn | apply balances_kept_same; reflexivity].
Qed.

Lemma balances_run steps d :
  store_wf d -> balances_nonneg d ->
  balances_nonneg (run d steps) /\ balances_kept d (run d steps).
Proof.
  revert d. induction steps as [|s steps IH]; intros d Hwf Hnn; simpl.
  - split; [exact Hnn | apply balances_kept_refl].
  - destruct (balances_exec d s Hwf Hnn) as [Hnn1 Hk1].
    destruct (IH (exec d s) (store_wf_exec d s Hwf) Hnn1) as [Hnn2 Hk2].
    split; [exact Hnn2 | exact (balances_kept_trans _ _ _ Hk1 Hk2)].
Qed.

(** C5.  The balance invariant.  An operation that passed its stateless
    validation and its evaluation is applied, and the database it leaves has
    every time-lock balance quantity non-negative and still has every balance
    record, with the owner, the asset kind and the review period it had; so
    the same holds after any history of operations and blocks.  A balance
    whose quantity reaches zero stays in the index like any other. *)
Theorem balance_invariant (d : database) (op : operation) :
  store_wf d ->
  balances_nonneg d ->
  validate op = Ok tt ->
  do_evaluate d op = Ok tt ->
  (exists d' r,
     apply_operation d op = (d', Ok r)
     /\ store_wf d'
     /\ balances_nonneg d'
     /\ balances_kept d d')
  /\ (forall steps,
        balances_nonneg (run d steps) /\ balances_kept d (run d steps)).
Proof.
  intros Hwf Hnn Hv Hev. split.
  - destruct (evaluate_total d op Hv Hev) as (d' & r & He).
    assert (Hap : apply_operation d op = (d', Ok r)).
    { apply apply_operation_Ok. split; [exact Hv | exact He]. }
    exists d', r. split_and!.
    + exact Hap.
    + exact (store_wf_evaluate d op d' r Hwf He).
    + exact (balances_nonneg_apply d op d' r Hnn Hap).
    + exact (balances_kept_evaluate d op d' r Hwf He).
  - intros steps. exact (balances_run steps d Hwf Hnn).
Qed.

(** ** CompleteWithdrawal: the order of the checks *)

Lemma leb_bool_decide (x y : Z) : (x <=? y) = bool_decide (x <= y).
Proof.
  destruct (Z.leb_spec x y).
  - rewrite bool_decide_eq_true_2 by assumption. reflexivity.
  - rewrite bool_decide_eq_false_2 by lia. reflexivity.
Qed.

Lemma orb_bool_decide (P Q : Prop) `{Decision P} `{Decision Q} :
  bool_decide P || bool_decide Q = bool_decide (P \/ Q).
Proof. repeat case_bool_decide; simpl; try reflexivity; tauto. Qed.

Lemma complete_do_evaluate_conditions d o w b :
  time_lock_withdrawal_index d !! complete_withdrawal o = Some w ->
  time_lock_balance_index d !! tlw_balance w = Some b ->
  do_evaluate d (CompleteWithdrawal o)
  = first_failure (complete_conditions (head_block_time d) w b o).
Proof.
  intros Hw Hb. simpl.
  unfold complete_withdrawal_do_evaluate, get_time_lock_withdrawal,
    get_time_lock_balance, asset_ge.
  rewrite Hw. simpl. rewrite Hb. simpl.
  rewrite !leb_bool_decide, orb_bool_decide.
  repeat (case_bool_decide; simpl; [|reflexivity]).
  reflexivity.
Qed.

(** C3.  The validation of CompleteWithdrawal checks the five conditions of
    the specification in its order, each with a failure of its own.  For a
    pending withdrawal, a completion attempted before [finalize_date] fails
    with ReviewPeriodNotElapsed whatever its amount, asset, recipient and
    acting account are, and the database is left as it was. *)
Theorem complete_validation_order (d : database)
    (o : time_lock_complete_withdrawal_operation)
    (w : time_lock_withdrawal_object) :
  store_wf d ->
  time_lock_withdrawal_index d !! complete_withdrawal o = Some w ->
  exists b,
    time_lock_balance_index d !! tlw_balance w = Some b
    /\ do_evaluate d (CompleteWithdrawal o)
       = first_failure (complete_conditions (head_block_time d) w b o)
    /\ NoDup (map snd (complete_conditions (head_block_time d) w b o))
    /\ (head_block_time d < tlw_finalize_date w ->
        do_evaluate d (CompleteWithdrawal o) = Err ReviewPeriodNotElapsed
        /\ evaluate d (CompleteWithdrawal o) = Err ReviewPeriodNotElapsed
        /\ fst (apply_operation d (CompleteWithdrawal o)) = d
        /\ (validate (CompleteWithdrawal o) = Ok tt ->
            apply_operation d (CompleteWithdrawal o)
            = (d, Err ReviewPeriodNotElapsed))).
Proof.
  intros Hwf Hw.
  destruct (proj2 Hwf _ _ Hw) as [_ [b Hb]].
  exists b. split; [exact Hb|].
  pose proof (complete_do_evaluate_conditions d o w b Hw Hb) as Hev.
  split; [exact Hev|]. split.
  - simpl. apply (bool_decide_unpack _). reflexivity.
  - intros Hearly.
    assert (Hfail : do_evaluate d (CompleteWithdrawal o)
                    = Err ReviewPeriodNotElapsed).
    { rewrite Hev. simpl. rewrite bool_decide_eq_false_2 by lia. reflexivity. }
    assert (Hfail' : evaluate d (CompleteWithdrawal o)
                     = Err ReviewPeriodNotElapsed).
    { unfold evaluate. rewrite Hfail. reflexivity. }
    split_and!; [exact Hfail | exact Hfail' | |].
    + unfold apply_operation. rewrite Hfail'.
      destruct (validate (CompleteWithdrawal o)); reflexivity.
    + intros Hv. unfold apply_operation. rewrite Hv, Hfail'. reflexivity.
Qed.

(** ** RequestWithdrawal only records the request *)

(** C6.  Once its evaluation passed, applying RequestWithdrawal succeeds, adds
    exactly one pending withdrawal, under the next identifier of the index,
    which it returns; the record refers to the balance, carries the quantity
    and the recipient of the operation, and finalizes at the head block time
    plus the review period of the balance.  Every time-lock balance and every
    ledger entry is as before. *)
Theorem request_withdrawal_apply (d : database)
    (o : time_lock_withdraw_operation) :
  store_wf d ->
  do_evaluate d (RequestWithdrawal o) = Ok tt ->
  exists b d',
    time_lock_balance_index d !! withdraw_balance o = Some b
    /\ do_apply d (RequestWithdrawal o)
       = Ok (d', object_id_result (next_withdrawal_id d))
    /\ time_lock_withdrawal_index d !! next_withdrawal_id d = None
    /\ time_lock_withdrawal_index d'
       = <[next_withdrawal_id d
           := mk_withdrawal (withdraw_balance o)
                (amount (withdraw_withdrawal o)) (withdraw_recipient o)
                (head_block_time d + tlb_review_period_seconds b)]>
           (time_lock_withdrawal_index d)
    /\ size (time_lock_withdrawal_index d')
       = S (size (time_lock_withdrawal_index d))
    /\ time_lock_balance_index d' = time_lock_balance_index d
    /\ account_balances d' = account_balances d
    /\ (forall id, locked_of d' id = locked_of d id)
    /\ (forall a k, ledger_of d' a k = ledger_of d a k).
Proof.
  intros Hwf Hev.
  pose proof (store_wf_fresh_withdrawal d Hwf) as Hfresh.
  apply withdraw_do_evaluate_Ok in Hev as (b & Hb & _).
  exists b. eexists. split; [exact Hb|]. split.
  - simpl. unfold withdraw_do_apply, get_time_lock_balance.
    rewrite Hb. simpl. reflexivity.
  - simpl. split_and!; try reflexivity.
    + exact Hfresh.
    + apply map_size_insert_None. exact Hfresh.
Qed.

(** ** AbortWithdrawal *)

Lemma abort_do_evaluate_refused d o w b :
  time_lock_withdrawal_index d !! abort_withdrawal o = Some w ->
  time_lock_balance_index d !! tlw_balance w = Some b ->
  tlb_owner b ∈ account_index d ->
  abort_owner o <> tlb_owner b ->
  do_evaluate d (AbortWithdrawal o)
  = if decide (abort_owner o ∈ account_index d)
    then Err Unauthorized else Err NotFound.
Proof.
  intros Hw Hb Hin Hne. simpl.
  unfold abort_withdrawal_do_evaluate, get_time_lock_withdrawal,
    get_time_lock_balance, get_account.
  rewrite Hw. simpl. rewrite Hb. simpl.
  rewrite bool_decide_eq_false_2 by exact Hne. simpl.
  case_decide; simpl; [|reflexivity].
  rewrite decide_True by exact Hin. reflexivity.
Qed.

(** C7.  The validation of AbortWithdrawal passes exactly when the withdrawal
    exists and the acting owner is the owner of its balance.  Any other
    account that resolves is refused with Unauthorized, the recipient of the
    withdrawal included (an acting account that does not resolve fails in the
    lookup made for the message, with NotFound).  The head block time plays
    no part, so a withdrawal that is still pending can be aborted after its
    [finalize_date] too.  Applying it removes that withdrawal record and
    nothing else: the other withdrawals, the balances and the ledger are as
    before. *)
Theorem abort_withdrawal_contract (d : database)
    (o : time_lock_abort_withdrawal_operation) :
  store_wf d ->
  (do_evaluate d (AbortWithdrawal o) = Ok tt <->
   exists w,
     time_lock_withdrawal_index d !! abort_withdrawal o = Some w
     /\ tlb_owner <$> (time_lock_balance_index d !! tlw_balance w)
        = Some (abort_owner o))
  /\ (forall w,
        time_lock_withdrawal_index d !! abort_withdrawal o = Some w ->
        exists b,
          time_lock_balance_index d !! tlw_balance w = Some b
          /\ (abort_owner o <> tlb_owner b ->
              (abort_owner o ∈ account_index d ->
               do_evaluate d (AbortWithdrawal o) = Err Unauthorized)
              /\ (abort_owner o ∉ account_index d ->
                  do_evaluate d (AbortWithdrawal o) = Err NotFound)
              /\ (recipients_resolve d ->
                  abort_owner o = tlw_recipient w ->
                  do_evaluate d (AbortWithdrawal o) = Err Unauthorized)))
  /\ (time_lock_withdrawal_index d !! abort_withdrawal o = None ->
      do_evaluate d (AbortWithdrawal o) = Err NotFound)
  /\ (forall t,
        do_evaluate (set_head_block_time t d) (AbortWithdrawal o)
        = do_evaluate d (AbortWithdrawal o))
  /\ (do_evaluate d (AbortWithdrawal o) = Ok tt ->
      evaluate d (AbortWithdrawal o)
      = Ok (remove_withdrawal d (abort_withdrawal o), void_result))
  /\ (forall d' r,
        evaluate d (AbortWithdrawal o) = Ok (d', r) ->
        time_lock_withdrawal_index d'
        = delete (abort_withdrawal o) (time_lock_withdrawal_index d)
        /\ time_lock_balance_index d' = time_lock_balance_index d
        /\ account_balances d' = account_balances d).
Proof.
  intros Hwf. split_and!.
  - rewrite abort_do_evaluate_Ok. split.
    + intros (w & b & Hw & Hb & Ho). exists w. split; [exact Hw|].
      rewrite Hb. simpl. congruence.
    + intros (w & Hw & Ho). exists w.
      destruct (time_lock_balance_index d !! tlw_balance w) as [b|] eqn:Hb;
        [|discriminate].
      exists b. simpl in Ho. split_and!; congruence.
  - intros w Hw. destruct (proj2 Hwf _ _ Hw) as [_ [b Hb]].
    exists b. split; [exact Hb|].
    intros Hne.
    pose proof (abort_do_evaluate_refused d o w b Hw Hb
                  (proj2 (proj1 Hwf _ _ Hb)) Hne) as Hrefused.
    split_and!.
    + intros Hin. rewrite Hrefused, decide_True by exact Hin. reflexivity.
    + intros Hout. rewrite Hrefused, decide_False by exact Hout. reflexivity.
    + intros Hrr Hrec.
      rewrite Hrefused, decide_True; [reflexivity|].
      rewrite Hrec. exact (Hrr _ _ Hw).
  - intros Hnone. simpl.
    unfold abort_withdrawal_do_evaluate, get_time_lock_withdrawal.
    rewrite Hnone. reflexivity.
  - intros t. reflexivity.
  - intros Hev. apply abort_do_evaluate_Ok in Hev as (w & b & Hw & Hb & Ho).
    apply abort_evaluate_Ok. eauto 10.
  - intros d' r He.
    apply abort_evaluate_Ok in He as (w & b & Hw & Hb & Ho & -> & ->).
    split_and!; reflexivity.
Qed.

(** C8.  After a successful AbortWithdrawal, a CompleteWithdrawal that names
    the same withdrawal fails with NotFound, at whatever time it is attempted,
    and leaves the database as it was. *)
Theorem abort_then_complete (d : database)
    (a : time_lock_abort_withdrawal_operation) (d1 : database)
    (r : operation_result) (c : time_lock_complete_withdrawal_operation)
    (t : time_point_sec) :
  evaluate d (AbortWithdrawal a) = Ok (d1, r) ->
  complete_withdrawal c = abort_withdrawal a ->
  do_evaluate (set_head_block_time t d1) (CompleteWithdrawal c) = Err NotFound
  /\ evaluate (set_head_block_time t d1) (CompleteWithdrawal c) = Err NotFound
  /\ fst (apply_operation (set_head_block_time t d1) (CompleteWithdrawal c))
     = set_head_block_time t d1
  /\ (validate (CompleteWithdrawal c) = Ok tt ->
      apply_operation (set_head_block_time t d1) (CompleteWithdrawal c)
      = (set_head_block_time t d1, Err NotFound)).
Proof.
  intros He Hid.
  apply abort_evaluate_Ok in He as (w & b & Hw & Hb & Ho & -> & ->).
  assert (Hfail : do_evaluate
                    (set_head_block_time t
                       (remove_withdrawal d (abort_withdrawal a)))
                    (CompleteWithdrawal c) = Err NotFound).
  { simpl. unfold complete_withdrawal_do_evaluate, get_time_lock_withdrawal.
    simpl. rewrite Hid, lookup_delete_eq. reflexivity. }
  assert (Hfail' : evaluate
                     (set_head_block_time t
                        (remove_withdrawal d (abort_withdrawal a)))
                     (CompleteWithdrawal c) = Err NotFound).
  { unfold evaluate. rewrite Hfail. reflexivity. }
  split_and!; [exact Hfail | exact Hfail' | |].
  - unfold apply_operation. rewrite Hfail'.
    destruct (validate (CompleteWithdrawal c)); reflexivity.
  - intros Hv. unfold apply_operation. rewrite Hv, Hfail'. reflexivity.
Qed.

(** ** Stateless validation, summed up *)

(** C10.  The stateless validation accepts a zero fee for AbortWithdrawal and
    CompleteWithdrawal (the fee must be non-negative) and refuses a zero or
    negative fee for Create, Deposit and RequestWithdrawal (the fee must be
    positive).  Create accepts an initial deposit of zero; Deposit and
    CompleteWithdrawal require a positive amount. *)
Theorem validate_fee_and_amount :
  (forall o, validate (AbortWithdrawal o) = Ok tt <-> 0 <= amount (abort_fee o))
  /\ (forall o, validate (CompleteWithdrawal o) = Ok tt <->
                0 <= amount (complete_fee o) /\ 0 < amount (complete_amount o))
  /\ (forall o, validate (Create o) = Ok tt <->
                0 < amount (create_fee o)
                /\ 0 <= amount (create_initial_deposit o)
                /\ 0 < create_review_period_seconds o)
  /\ (forall o, validate (Deposit o) = Ok tt <->
                0 < amount (deposit_fee o) /\ 0 < amount (deposit_deposit o))
  /\ (forall o, validate (RequestWithdrawal o) = Ok tt <->
                0 < amount (withdraw_fee o)
                /\ 0 < amount (withdraw_withdrawal o))
  /\ (forall op e, validate op = Err e -> e = InvalidArgument).
Proof.
  split_and!.
  - exact abort_validate_Ok.
  - exact complete_validate_Ok.
  - exact create_validate_Ok.
  - exact deposit_validate_Ok.
  - exact withdraw_validate_Ok.
  - exact validate_Err.
Qed.

(** ** The shortfall is found at completion *)

Lemma complete_insufficient d c w b :
  time_lock_withdrawal_index d !! complete_withdrawal c = Some w ->
  time_lock_balance_index d !! tlw_balance w = Some b ->
  tlw_finalize_date w <= head_block_time d ->
  amount (tlb_amount b) < amount (complete_amount c) ->
  do_evaluate d (CompleteWithdrawal c) = Err InsufficientFunds.
Proof.
  intros Hw Hb Ht Hq.
  rewrite (complete_do_evaluate_conditions d c w b Hw Hb). simpl.
  rewrite bool_decide_eq_true_2 by exact Ht.
  rewrite bool_decide_eq_false_2 by lia. reflexivity.
Qed.

Lemma second_completion_fails d c1 d1 r w1 w2 b c2 t :
  time_lock_withdrawal_index d !! complete_withdrawal c1 = Some w1 ->
  time_lock_withdrawal_index d !! complete_withdrawal c2 = Some w2 ->
  complete_withdrawal c1 <> complete_withdrawal c2 ->
  tlw_balance w2 = tlw_balance w1 ->
  time_lock_balance_index d !! tlw_balance w1 = Some b ->
  amount (tlb_amount b) < tlw_withdrawal w1 + tlw_withdrawal w2 ->
  evaluate d (CompleteWithdrawal c1) = Ok (d1, r) ->
  do_evaluate (set_head_block_time t d1) (CompleteWithdrawal c2) <> Ok tt
  /\ (tlw_finalize_date w2 <= t ->
      amount (complete_amount c2) = tlw_withdrawal w2 ->
      do_evaluate (set_head_block_time t d1) (CompleteWithdrawal c2)
      = Err InsufficientFunds).
Proof.
  intros Hw1 Hw2 Hne Hsame Hb Hsum He.
  apply complete_evaluate_Ok in He
    as (w & b' & Hw & Hb' & Ht & Hq & Hact & Hrec & Hamt & Hk & Hc & -> & ->).
  rewrite Hw1 in Hw. injection Hw as <-.
  rewrite Hb in Hb'. injection Hb' as <-.
  set (d1 := set_head_block_time t _).
  assert (Hw2' : time_lock_withdrawal_index d1 !! complete_withdrawal c2
                 = Some w2).
  { simpl. rewrite lookup_delete_ne by exact Hne. exact Hw2. }
  assert (Hb2 : time_lock_balance_index d1 !! tlw_balance w2
                = Some (balance_minus (complete_amount c1) b)).
  { simpl. rewrite Hsame, lookup_alter_eq, Hb. reflexivity. }
  split.
  - intros Hok. apply complete_do_evaluate_Ok in Hok
      as (w & b2 & Hw & Hb2' & Ht2 & Hq2 & _ & _ & Hamt2 & _).
    rewrite Hw2' in Hw. injection Hw as <-.
    rewrite Hb2 in Hb2'. injection Hb2' as <-.
    simpl in Hq2. lia.
  - intros Ht2 Hamt2.
    apply (complete_insufficient d1 c2 w2 _ Hw2' Hb2).
    + exact Ht2.
    + simpl. lia.
Qed.

(** C4.  A RequestWithdrawal on an existing balance, by its owner, in the
    asset kind of the balance and to a recipient that resolves, passes
    validation whatever its quantity, in particular when the quantity exceeds
    what the balance holds.  The shortfall shows at CompleteWithdrawal: once
    the review period has elapsed, its validation fails with InsufficientFunds
    when the balance holds less than the amount to complete.  So of two
    pending withdrawals from one balance that together exceed it, once one
    has completed the other cannot. *)
Theorem request_defers_shortfall (d : database)
    (o : time_lock_withdraw_operation) (b : time_lock_balance_object) :
  store_wf d ->
  time_lock_balance_index d !! withdraw_balance o = Some b ->
  tlb_owner b = withdraw_owner o ->
  asset_id (withdraw_withdrawal o) = asset_id (tlb_amount b) ->
  withdraw_recipient o ∈ account_index d ->
  do_evaluate d (RequestWithdrawal o) = Ok tt
  /\ (exists d1,
        evaluate d (RequestWithdrawal o)
        = Ok (d1, object_id_result (next_withdrawal_id d))
        /\ forall c t,
             complete_withdrawal c = next_withdrawal_id d ->
             head_block_time d + tlb_review_period_seconds b <= t ->
             amount (tlb_amount b) < amount (complete_amount c) ->
             do_evaluate (set_head_block_time t d1) (CompleteWithdrawal c)
             = Err InsufficientFunds)
  /\ (forall d2 c w2 b2,
        time_lock_withdrawal_index d2 !! complete_withdrawal c = Some w2 ->
        time_lock_balance_index d2 !! tlw_balance w2 = Some b2 ->
        tlw_finalize_date w2 <= head_block_time d2 ->
        amount (tlb_amount b2) < amount (complete_amount c) ->
        do_evaluate d2 (CompleteWithdrawal c) = Err InsufficientFunds)
  /\ (forall d2 c1 d3 r w1 w2 b2 c2 t,
        time_lock_withdrawal_index d2 !! complete_withdrawal c1 = Some w1 ->
        time_lock_withdrawal_index d2 !! complete_withdrawal c2 = Some w2 ->
        complete_withdrawal c1 <> complete_withdrawal c2 ->
        tlw_balance w2 = tlw_balance w1 ->
        time_lock_balance_index d2 !! tlw_balance w1 = Some b2 ->
        amount (tlb_amount b2) < tlw_withdrawal w1 + tlw_withdrawal w2 ->
        evaluate d2 (CompleteWithdrawal c1) = Ok (d3, r) ->
        do_evaluate (set_head_block_time t d3) (CompleteWithdrawal c2) <> Ok tt
        /\ (tlw_finalize_date w2 <= t ->
            amount (complete_amount c2) = tlw_withdrawal w2 ->
            do_evaluate (set_head_block_time t d3) (CompleteWithdrawal c2)
            = Err InsufficientFunds)).
Proof.
  intros Hwf Hb Ho Ha Hrec.
  assert (Hacc : withdraw_owner o ∈ account_index d).
  { rewrite <- Ho. exact (proj2 (proj1 Hwf _ _ Hb)). }
  assert (Hev : do_evaluate d (RequestWithdrawal o) = Ok tt).
  { apply withdraw_do_evaluate_Ok. eauto 10. }
  split_and!.
  - exact Hev.
  - eexists. split.
    + apply withdraw_evaluate_Ok. exists b. split_and!; eauto.
    + intros c t Hid Ht Hq.
      eapply complete_insufficient.
      * simpl. rewrite Hid, lookup_insert_eq. reflexivity.
      * simpl. exact Hb.
      * simpl. exact Ht.
      * exact Hq.
  - exact complete_insufficient.
  - intros d2 c1 d3 r w1 w2 b2 c2 t.
    exact (second_completion_fails d2 c1 d3 r w1 w2 b2 c2 t).
Qed.

(** ** Pending withdrawals through a history *)

Lemma next_withdrawal_id_evaluate d op d' r :
  evaluate d op = Ok (d', r) ->
  (next_withdrawal_id d <= next_withdrawal_id d')%N.
Proof.
  intros He. destruct op as [o|o|o|o|o].
  - apply create_evaluate_Ok in He as (_ & _ & _ & _ & ->). reflexivity.
  - apply deposit_evaluate_Ok in He as (? & _ & _ & _ & _ & _ & _ & ->).
    reflexivity.
  - apply withdraw_evaluate_Ok in He as (? & _ & _ & _ & _ & _ & _ & ->).
    simpl. lia.
  - apply abort_evaluate_Ok in He as (? & ? & _ & _ & _ & _ & ->).
    reflexivity.
  - apply complete_evaluate_Ok in He
      as (? & ? & _ & _ & _ & _ & _ & _ & _ & _ & _ & _ & ->).
    reflexivity.
Qed.

Lemma next_withdrawal_id_exec d s :
  (next_withdrawal_id d <= next_withdrawal_id (exec d s))%N.
Proof.
  destruct s as [op|t]; simpl; [|reflexivity].
  destruct (apply_operation d op) as [d' [r|e]] eqn:Hap; simpl.
  - apply apply_operation_Ok in Hap as [_ He].
    exact (next_withdrawal_id_evaluate d op d' r He).
  - apply apply_operation_Err in Hap as ->. reflexivity.
Qed.

(** A pending withdrawal found after a step under an identifier that was
    already handed out was there before the step, unchanged. *)
Lemma withdrawals_evaluate_old d op d' r id w :
  (id < next_withdrawal_id d)%N ->
  evaluate d op = Ok (d', r) ->
  time_lock_withdrawal_index d' !! id = Some w ->
  time_lock_withdrawal_index d !! id = Some w.
Proof.
  intros Hlt He. destruct op as [o|o|o|o|o].
  - apply create_evaluate_Ok in He as (Ho & Ha & Hq & -> & ->). simpl.
    intros Hw. exact Hw.
  - apply deposit_evaluate_Ok in He as (b & Hb & Ho & Ha & Hacc & Hq & -> & ->).
    simpl. intros Hw. exact Hw.
  - apply withdraw_evaluate_Ok in He
      as (b & Hb & Ho & Ha & Hacc & Hrec & -> & ->).
    simpl. rewrite lookup_insert_ne by lia. intros Hw. exact Hw.
  - apply abort_evaluate_Ok in He as (w0 & b & Hw0 & Hb & Ho & -> & ->).
    simpl. intros [_ Hw]%lookup_delete_Some. exact Hw.
  - apply complete_evaluate_Ok in He
      as (w0 & b & Hw0 & Hb & Ht & Hq & Hact & Hrec & Hamt & Hk & Hc & -> & ->).
    simpl. intros [_ Hw]%lookup_delete_Some. exact Hw.
Qed.

Lemma withdrawals_exec_old d s id w :
  (id < next_withdrawal_id d)%N ->
  time_lock_withdrawal_index (exec d s) !! id = Some w ->
  time_lock_withdrawal_index d !! id = Some w.
Proof.
  intros Hlt. destruct s as [op|t]; simpl.
  - destruct (apply_operation d op) as [d' [r|e]] eqn:Hap; simpl.
    + apply apply_operation_Ok in Hap as [_ He].
      exact (withdrawals_evaluate_old d op d' r id w Hlt He).
    + apply apply_operation_Err in Hap as ->. intros Hw. exact Hw.
  - intros Hw. exact Hw.
Qed.

Lemma withdrawals_run_old steps d id w :
  (id < next_withdrawal_id d)%N ->
  time_lock_withdrawal_index (run d steps) !! id = Some w ->
  time_lock_withdrawal_index d !! id = Some w.
Proof.
  revert d. induction steps as [|s steps IH]; intros d Hlt; simpl.
  - intros Hw. exact Hw.
  - intros Hw. apply (withdrawals_exec_old d s id w Hlt).
    apply IH; [|exact Hw].
    pose proof (next_withdrawal_id_exec d s). lia.
Qed.

(** ** CompleteWithdrawal reads the balance as it is *)

Lemma complete_insufficient_iff d c w b :
  time_lock_withdrawal_index d !! complete_withdrawal c = Some w ->
  time_lock_balance_index d !! tlw_balance w = Some b ->
  tlw_finalize_date w <= head_block_time d ->
  do_evaluate d (CompleteWithdrawal c) = Err InsufficientFunds
  <-> amount (tlb_amount b) < amount (complete_amount c).
Proof.
  intros Hw Hb Ht. split.
  - rewrite (complete_do_evaluate_conditions d c w b Hw Hb). simpl.
    repeat (case_bool_decide; simpl; [|try discriminate; intros; lia]).
    discriminate.
  - exact (complete_insufficient d c w b Hw Hb Ht).
Qed.

(** C9.  The pending withdrawal holds the identifier of its balance, and
    CompleteWithdrawal resolves it in the database it runs on.  Take a request
    on a balance and any history after it that leaves the request pending:
    the completion compares its amount with the quantity the balance has at
    that point, and, once its validation passed, it is applied and takes the
    amount from that quantity; what the balance held when the request was
    made plays no part. *)
Theorem complete_resolves_current_balance (d0 : database)
    (o : time_lock_withdraw_operation) (d1 : database)
    (wid : time_lock_withdrawal_id_type) (steps : list step)
    (c : time_lock_complete_withdrawal_operation)
    (w : time_lock_withdrawal_object) :
  store_wf d0 ->
  evaluate d0 (RequestWithdrawal o) = Ok (d1, object_id_result wid) ->
  time_lock_withdrawal_index (run d1 steps) !! wid = Some w ->
  complete_withdrawal c = wid ->
  tlw_balance w = withdraw_balance o
  /\ exists b2,
       time_lock_balance_index (run d1 steps) !! withdraw_balance o = Some b2
       /\ do_evaluate (run d1 steps) (CompleteWithdrawal c)
          = first_failure
              (complete_conditions (head_block_time (run d1 steps)) w b2 c)
       /\ (tlw_finalize_date w <= head_block_time (run d1 steps) ->
           (do_evaluate (run d1 steps) (CompleteWithdrawal c)
            = Err InsufficientFunds
            <-> amount (tlb_amount b2) < amount (complete_amount c)))
       /\ (validate (CompleteWithdrawal c) = Ok tt ->
           do_evaluate (run d1 steps) (CompleteWithdrawal c) = Ok tt ->
           exists d3,
             do_apply (run d1 steps) (CompleteWithdrawal c)
             = Ok (d3, void_result)
             /\ apply_operation (run d1 steps) (CompleteWithdrawal c)
                = (d3, Ok void_result)
             /\ time_lock_balance_index d3 !! withdraw_balance o
                = Some (balance_minus (complete_amount c) b2)
             /\ locked_of d3 (withdraw_balance o)
                = locked_of (run d1 steps) (withdraw_balance o)
                  - amount (complete_amount c))
       /\ (forall d3 r,
             evaluate (run d1 steps) (CompleteWithdrawal c) = Ok (d3, r) ->
             time_lock_balance_index d3 !! withdraw_balance o
             = Some (balance_minus (complete_amount c) b2)).
Proof.
  intros Hwf Hreq Hpending Hid.
  pose proof (store_wf_evaluate _ _ _ _ Hwf Hreq) as Hwf1.
  pose proof (store_wf_run steps d1 Hwf1) as Hwf2.
  apply withdraw_evaluate_Ok in Hreq
    as (b & Hb & Ho & Ha & Hacc & Hrec & Hr & Hd1).
  injection Hr as ->.
  assert (Hw1 : time_lock_withdrawal_index d1 !! next_withdrawal_id d0
                = Some w).
  { apply (withdrawals_run_old steps d1 _ w); [|exact Hpending].
    subst d1. simpl. lia. }
  assert (Hwb : tlw_balance w = withdraw_balance o).
  { subst d1. simpl in Hw1. rewrite lookup_insert_eq in Hw1.
    injection Hw1 as <-. reflexivity. }
  split; [exact Hwb|].
  destruct (proj2 Hwf2 _ _ Hpending) as [_ [b2 Hb2]].
  rewrite <- Hid in Hpending.
  assert (Hdebit : forall d3 r,
            evaluate (run d1 steps) (CompleteWithdrawal c) = Ok (d3, r) ->
            r = void_result
            /\ time_lock_balance_index d3 !! tlw_balance w
               = Some (balance_minus (complete_amount c) b2)).
  { intros d3 r He.
    apply complete_evaluate_Ok in He
      as (w' & b' & Hw' & Hb' & _ & _ & _ & _ & _ & _ & _ & -> & ->).
    rewrite Hpending in Hw'. injection Hw' as <-.
    rewrite Hb2 in Hb'. injection Hb' as <-.
    split; [reflexivity|].
    simpl. rewrite lookup_alter_eq, Hb2. reflexivity. }
  exists b2. rewrite <- Hwb. split_and!.
  - exact Hb2.
  - exact (complete_do_evaluate_conditions _ c w b2 Hpending Hb2).
  - intros Ht. exact (complete_insufficient_iff _ c w b2 Hpending Hb2 Ht).
  - intros Hv Hev.
    destruct (evaluate_total (run d1 steps) (CompleteWithdrawal c) Hv Hev)
      as (d3 & r & He).
    destruct (Hdebit d3 r He) as [-> Hbal].
    exists d3. split_and!.
    + unfold evaluate in He. rewrite Hev in He. exact He.
    + apply apply_operation_Ok. split; [exact Hv | exact He].
    + exact Hbal.
    + unfold locked_of. rewrite Hbal, Hb2. reflexivity.
  - intros d3 r He. exact (proj2 (Hdebit d3 r He)).
Qed.

(** ** Round trip *)

(** C2.  Round trip.  Owner [O] holds at least [q] of asset kind [A].  Create
    with initial deposit [q], then RequestWithdrawal of [q] to recipient [R],
    then, at any time [t] at or after the end of the review period,
    CompleteWithdrawal of [q] with [R] acting and receiving: all three are
    accepted and applied; the time-lock balance is still there, with quantity
    0; the ledger entry of [R] is [q] above what it was before the
    completion, which is [q] above what it was at the start when [R] is not
    [O] (and what it was at the start when [R] is [O]).  With a positive [q],
    review period and fees the operations also pass their stateless
    validation, and the history run by the dispatcher ends in the same
    database. *)
Theorem round_trip (d0 : database) (O R : account_id_type)
    (A : asset_id_type) (q period : Z) (fee1 fee2 fee3 : asset) :
  store_wf d0 ->
  O ∈ account_index d0 ->
  R ∈ account_index d0 ->
  A ∈ asset_index d0 ->
  0 <= q ->
  q <= ledger_of d0 O A ->
  let bid := next_balance_id d0 in
  let wid := next_withdrawal_id d0 in
  let create := Create (mk_create fee1 O (mk_asset q A) period) in
  let request := RequestWithdrawal (mk_withdraw fee2 O bid (mk_asset q A) R) in
  let complete := CompleteWithdrawal (mk_complete fee3 R R (mk_asset q A) wid) in
  exists d1 d2,
    evaluate d0 create = Ok (d1, object_id_result bid)
    /\ evaluate d1 request = Ok (d2, object_id_result wid)
    /\ locked_of d2 bid = q
    /\ forall t,
         head_block_time d0 + period <= t ->
         exists d3,
           evaluate (set_head_block_time t d2) complete = Ok (d3, void_result)
           /\ time_lock_balance_index d3 !! bid
              = Some (mk_balance O (mk_asset 0 A) period)
           /\ locked_of d3 bid = 0
           /\ time_lock_withdrawal_index d3 !! wid = None
           /\ ledger_of d3 R A = ledger_of d2 R A + q
           /\ ledger_of d3 R A
              = (if decide (R = O) then ledger_of d0 R A
                 else ledger_of d0 R A + q)
           /\ (0 < q -> 0 < period -> 0 < amount fee1 -> 0 < amount fee2 ->
               0 <= amount fee3 ->
               run d0 [Apply create; Apply request; NewBlock t; Apply complete]
               = d3).
Proof.
  intros Hwf HO HR HA Hq0 Hq bid wid create request complete.
  set (d1 := set_balances
               (<[bid := mk_balance O (mk_asset q A) period]>
                  (time_lock_balance_index d0))
               (N.succ bid)
               (set_account_balances
                  (<[(O, A) := ledger_of d0 O A - q]> (account_balances d0))
                  d0)).
  set (d2 := set_withdrawals
               (<[wid := mk_withdrawal bid q R (head_block_time d0 + period)]>
                  (time_lock_withdrawal_index d1))
               (N.succ wid) d1).
  assert (Hcreate : evaluate d0 create = Ok (d1, object_id_result bid)).
  { apply create_evaluate_Ok. simpl. split_and!; auto. }
  assert (Hrequest : evaluate d1 request = Ok (d2, object_id_result wid)).
  { apply withdraw_evaluate_Ok.
    exists (mk_balance O (mk_asset q A) period). simpl.
    split_and!; auto. apply lookup_insert_eq. }
  exists d1, d2. split; [exact Hcreate|]. split; [exact Hrequest|].
  split.
  { unfold locked_of; simpl. rewrite lookup_insert_eq. reflexivity. }
  intros t Ht.
  set (d3 := remove_withdrawal
               (set_account_balances
                  (<[(R, A) := ledger_of d2 R A + q]> (account_balances d2))
                  (modify_balance (set_head_block_time t d2) bid
                     (balance_minus (mk_asset q A))))
               wid).
  assert (Hcomplete :
            evaluate (set_head_block_time t d2) complete
            = Ok (d3, void_result)).
  { apply complete_evaluate_Ok.
    exists (mk_withdrawal bid q R (head_block_time d0 + period)),
      (mk_balance O (mk_asset q A) period).
    simpl. split_and!; auto; try reflexivity; try lia.
    - apply lookup_insert_eq.
    - apply lookup_insert_eq. }
  exists d3. split; [exact Hcomplete|].
  split_and!.
  - simpl. rewrite lookup_alter_eq, lookup_insert_eq. simpl.
    unfold balance_minus, asset_sub; simpl. rewrite Z.sub_diag. reflexivity.
  - unfold locked_of; simpl. rewrite lookup_alter_eq, lookup_insert_eq. simpl.
    lia.
  - simpl. apply lookup_delete_eq.
  - unfold ledger_of at 1, get_balance; simpl. rewrite lookup_insert_eq.
    reflexivity.
  - unfold ledger_of at 1, get_balance; simpl. rewrite lookup_insert_eq. simpl.
    unfold ledger_of at 1, get_balance; simpl.
    case_decide as HRO.
    + subst R. rewrite lookup_insert_eq. simpl. lia.
    + rewrite lookup_insert_ne by congruence. reflexivity.
  - intros Hq1 Hp Hf1 Hf2 Hf3.
    assert (Hv1 : validate create = Ok tt).
    { apply create_validate_Ok. simpl. lia. }
    assert (Hv2 : validate request = Ok tt).
    { apply withdraw_validate_Ok. simpl. lia. }
    assert (Hv3 : validate complete = Ok tt).
    { apply complete_validate_Ok. simpl. lia. }
    unfold run. cbn [fold_left exec].
    rewrite (proj2 (apply_operation_Ok d0 create _ _) (conj Hv1 Hcreate)).
    cbn [fst].
    rewrite (proj2 (apply_operation_Ok d1 request _ _) (conj Hv2 Hrequest)).
    cbn [fst].
    rewrite (proj2 (apply_operation_Ok _ complete _ _) (conj Hv3 Hcomplete)).
    reflexivity.
Qed.

(** ** The worked scenario *)

Lemma scenario_outcome :
  let d := run scenario_genesis scenario_steps in
  time_lock_balance_index d
  = {[ 0%N := mk_balance account_O (mk_asset 50 asset_A) 3600 ]}
  /\ time_lock_withdrawal_index d = ∅
  /\ ledger_of d account_O asset_A = 350
  /\ ledger_of d account_R asset_A = 100.
Proof. vm_compute. split_and!; reflexivity. Qed.

Lemma scenario_abort_keeps_balance :
  let d := run scenario_genesis (take 4 scenario_steps) in
  locked_of d 0%N = 150 /\ time_lock_withdrawal_index d = ∅.
Proof. vm_compute. split; reflexivity. Qed.

(** A request for more than the balance holds passes; left as it is, it cannot
    complete, and a deposit made in between lets it complete. *)
Lemma scenario_deposit_is_observed :
  let c := CompleteWithdrawal
             (mk_complete scenario_no_fee account_R account_R
                (mk_asset 150 asset_A) 0%N) in
  snd (apply_operation (run scenario_requested [NewBlock 4600]) c)
  = Err InsufficientFunds
  /\ snd (apply_operation
            (run scenario_requested
               [Apply (Deposit scenario_deposit); NewBlock 4600]) c)
     = Ok void_result.
Proof. vm_compute. split; reflexivity. Qed.

Ltac by_computation := apply (bool_decide_unpack _); vm_compute; exact I.

Lemma fund_conservation_witness :
  store_wf scenario_genesis
  /\ validate (Create scenario_create) = Ok tt
  /\ do_evaluate scenario_genesis (Create scenario_create) = Ok tt
  /\ total_funds asset_A (run scenario_genesis scenario_steps)
     = total_funds asset_A scenario_genesis.
Proof.
  assert (Hwf : store_wf scenario_genesis) by by_computation.
  assert (Hv : validate (Create scenario_create) = Ok tt) by reflexivity.
  assert (Hev : do_evaluate scenario_genesis (Create scenario_create) = Ok tt)
    by (vm_compute; reflexivity).
  split_and!; [exact Hwf | exact Hv | exact Hev |].
  exact (proj2 (fund_conservation scenario_genesis (Create scenario_create)
                  Hwf Hv Hev) scenario_steps asset_A).
Defined.

Lemma round_trip_witness :
  store_wf scenario_genesis
  /\ account_O ∈ account_index scenario_genesis
  /\ account_R ∈ account_index scenario_genesis
  /\ asset_A ∈ asset_index scenario_genesis
  /\ 0 <= 100
  /\ 100 <= ledger_of scenario_genesis account_O asset_A
  /\ exists d3,
       run scenario_genesis
         [ Apply (Create scenario_create);
           Apply (RequestWithdrawal scenario_request_100);
           NewBlock 4600;
           Apply (CompleteWithdrawal
                    (mk_complete scenario_no_fee account_R account_R
                       (mk_asset 100 asset_A) 0%N)) ]
       = d3
       /\ locked_of d3 0%N = 0
       /\ ledger_of d3 account_R asset_A
          = ledger_of scenario_genesis account_R asset_A + 100.
Proof.
  assert (Hwf : store_wf scenario_genesis) by by_computation.
  assert (HO : account_O ∈ account_index scenario_genesis) by by_computation.
  assert (HR : account_R ∈ account_index scenario_genesis) by by_computation.
  assert (HA : asset_A ∈ asset_index scenario_genesis) by by_computation.
  assert (Hq0 : 0 <= 100) by lia.
  assert (Hq : 100 <= ledger_of scenario_genesis account_O asset_A)
    by (vm_compute; discriminate).
  split_and!; try assumption.
  destruct (round_trip scenario_genesis account_O account_R asset_A 100 3600
              scenario_fee scenario_fee scenario_no_fee Hwf HO HR HA Hq0 Hq)
    as (d1 & d2 & _ & _ & _ & Hlater).
  destruct (Hlater 4600 ltac:(vm_compute; discriminate))
    as (d3 & _ & _ & Hzero & _ & _ & Hgain & Hrun).
  exists d3. split_and!.
  - apply Hrun; vm_compute; (reflexivity || discriminate).
  - exact Hzero.
  - rewrite Hgain. reflexivity.
Defined.

Lemma complete_validation_order_witness :
  store_wf scenario_requested
  /\ time_lock_withdrawal_index scenario_requested !! 0%N
     = Some (mk_withdrawal 0%N 150 account_R 4600)
  /\ do_evaluate scenario_requested
       (CompleteWithdrawal
          (mk_complete scenario_no_fee account_O account_O
             (mk_asset 999 0%N) 0%N))
     = Err ReviewPeriodNotElapsed.
Proof.
  assert (Hwf : store_wf scenario_requested) by by_computation.
  assert (Hw : time_lock_withdrawal_index scenario_requested !! 0%N
               = Some (mk_withdrawal 0%N 150 account_R 4600))
    by (vm_compute; reflexivity).
  split_and!; [exact Hwf | exact Hw |].
  destruct (complete_validation_order scenario_requested
              (mk_complete scenario_no_fee account_O account_O
                 (mk_asset 999 0%N) 0%N)
              (mk_withdrawal 0%N 150 account_R 4600) Hwf Hw)
    as (b & _ & _ & _ & Hearly).
  apply Hearly. vm_compute. reflexivity.
Defined.

Lemma request_defers_shortfall_witness :
  store_wf scenario_created
  /\ time_lock_balance_index scenario_created !! 0%N
     = Some (mk_balance account_O (mk_asset 100 asset_A) 3600)
  /\ account_R ∈ account_index scenario_created
  /\ do_evaluate scenario_created (RequestWithdrawal scenario_request_150)
     = Ok tt.
Proof.
  assert (Hwf : store_wf scenario_created) by by_computation.
  assert (Hb : time_lock_balance_index scenario_created
                 !! withdraw_balance scenario_request_150
               = Some (mk_balance account_O (mk_asset 100 asset_A) 3600))
    by (vm_compute; reflexivity).
  assert (HR : withdraw_recipient scenario_request_150
               ∈ account_index scenario_created) by by_computation.
  split_and!; [exact Hwf | exact Hb | exact HR |].
  exact (proj1 (request_defers_shortfall scenario_created
                  scenario_request_150
                  (mk_balance account_O (mk_asset 100 asset_A) 3600)
                  Hwf Hb eq_refl eq_refl HR)).
Defined.

Lemma balance_invariant_witness :
  store_wf scenario_genesis
  /\ balances_nonneg scenario_genesis
  /\ validate (Create scenario_create) = Ok tt
  /\ do_evaluate scenario_genesis (Create scenario_create) = Ok tt
  /\ balances_nonneg (run scenario_genesis scenario_steps).
Proof.
  assert (Hwf : store_wf scenario_genesis) by by_computation.
  assert (Hnn : balances_nonneg scenario_genesis) by by_computation.
  assert (Hv : validate (Create scenario_create) = Ok tt) by reflexivity.
  assert (Hev : do_evaluate scenario_genesis (Create scenario_create) = Ok tt)
    by (vm_compute; reflexivity).
  split_and!; [exact Hwf | exact Hnn | exact Hv | exact Hev |].
  exact (proj1 (proj2 (balance_invariant scenario_genesis
                         (Create scenario_create) Hwf Hnn Hv Hev)
                  scenario_steps)).
Defined.

Lemma request_withdrawal_apply_witness :
  store_wf scenario_created
  /\ do_evaluate scenario_created (RequestWithdrawal scenario_request_150)
     = Ok tt
  /\ exists b d',
       time_lock_balance_index scenario_created !! 0%N = Some b
       /\ do_apply scenario_created (RequestWithdrawal scenario_request_150)
          = Ok (d', object_id_result 0%N)
       /\ time_lock_balance_index d'
          = time_lock_balance_index scenario_created
       /\ account_balances d' = account_balances scenario_created.
Proof.
  assert (Hwf : store_wf scenario_created) by by_computation.
  assert (Hev : do_evaluate scenario_created
                  (RequestWithdrawal scenario_request_150) = Ok tt)
    by (vm_compute; reflexivity).
  split_and!; [exact Hwf | exact Hev |].
  destruct (request_withdrawal_apply scenario_created scenario_request_150
              Hwf Hev)
    as (b & d' & Hb & Hap & _ & _ & _ & Hbal & Hled & _).
  exists b, d'. split_and!; assumption.
Defined.

Lemma abort_withdrawal_contract_witness :
  store_wf (set_head_block_time 9999 scenario_requested)
  /\ do_evaluate (set_head_block_time 9999 scenario_requested)
       (AbortWithdrawal scenario_abort) = Ok tt
  /\ do_evaluate (set_head_block_time 9999 scenario_requested)
       (AbortWithdrawal (mk_abort scenario_no_fee account_R 0%N))
     = Err Unauthorized
  /\ do_evaluate (set_head_block_time 9999 scenario_requested)
       (AbortWithdrawal (mk_abort scenario_no_fee 9%N 0%N))
     = Err NotFound.
Proof.
  assert (Hwf : store_wf (set_head_block_time 9999 scenario_requested))
    by by_computation.
  split_and!; [exact Hwf | | |].
  - apply (proj1 (abort_withdrawal_contract
                    (set_head_block_time 9999 scenario_requested)
                    scenario_abort Hwf)).
    exists (mk_withdrawal 0%N 150 account_R 4600).
    vm_compute. split; reflexivity.
  - destruct (proj1 (proj2 (abort_withdrawal_contract
                              (set_head_block_time 9999 scenario_requested)
                              (mk_abort scenario_no_fee account_R 0%N) Hwf))
                (mk_withdrawal 0%N 150 account_R 4600)
                ltac:(vm_compute; reflexivity))
      as (b & Hb & Hrefused).
    assert (Hne : abort_owner (mk_abort scenario_no_fee account_R 0%N)
                  <> tlb_owner b).
    { vm_compute in Hb. injection Hb as <-. vm_compute. discriminate. }
    apply (proj1 (Hrefused Hne)). by_computation.
  - destruct (proj1 (proj2 (abort_withdrawal_contract
                              (set_head_block_time 9999 scenario_requested)
                              (mk_abort scenario_no_fee 9%N 0%N) Hwf))
                (mk_withdrawal 0%N 150 account_R 4600)
                ltac:(vm_compute; reflexivity))
      as (b & Hb & Hrefused).
    assert (Hne : abort_owner (mk_abort scenario_no_fee 9%N 0%N)
                  <> tlb_owner b).
    { vm_compute in Hb. injection Hb as <-. vm_compute. discriminate. }
    apply (proj1 (proj2 (Hrefused Hne))). by_computation.
Defined.

Lemma abort_then_complete_witness :
  evaluate scenario_requested (AbortWithdrawal scenario_abort)
  = Ok (remove_withdrawal scenario_requested 0%N, void_result)
  /\ apply_operation
       (set_head_block_time 4600 (remove_withdrawal scenario_requested 0%N))
       (CompleteWithdrawal
          (mk_complete scenario_no_fee account_R account_R
             (mk_asset 150 asset_A) 0%N))
     = (set_head_block_time 4600 (remove_withdrawal scenario_requested 0%N),
        Err NotFound).
Proof.
  assert (Hab : evaluate scenario_requested (AbortWithdrawal scenario_abort)
                = Ok (remove_withdrawal scenario_requested 0%N, void_result))
    by (vm_compute; reflexivity).
  split; [exact Hab|].
  apply (abort_then_complete scenario_requested scenario_abort
           (remove_withdrawal scenario_requested 0%N) void_result
           (mk_complete scenario_no_fee account_R account_R
              (mk_asset 150 asset_A) 0%N)
           4600 Hab eq_refl).
  reflexivity.
Defined.

Lemma complete_resolves_current_balance_witness :
  store_wf scenario_created
  /\ evaluate scenario_created (RequestWithdrawal scenario_request_150)
     = Ok (scenario_requested, object_id_result 0%N)
  /\ locked_of scenario_created 0%N = 100
  /\ time_lock_withdrawal_index scenario_due !! 0%N
     = Some (mk_withdrawal 0%N 150 account_R 4600)
  /\ validate (CompleteWithdrawal scenario_complete_150) = Ok tt
  /\ do_evaluate scenario_due (CompleteWithdrawal scenario_complete_150)
     = Ok tt
  /\ exists d3,
       apply_operation scenario_due (CompleteWithdrawal scenario_complete_150)
       = (d3, Ok void_result)
       /\ time_lock_balance_index d3 !! 0%N
          = Some (mk_balance account_O (mk_asset 0 asset_A) 3600).
Proof.
  assert (Hwf : store_wf scenario_created) by by_computation.
  assert (Hreq : evaluate scenario_created
                   (RequestWithdrawal scenario_request_150)
                 = Ok (scenario_requested, object_id_result 0%N))
    by (vm_compute; reflexivity).
  assert (Hpending :
            time_lock_withdrawal_index
              (run scenario_requested
                 [Apply (Deposit scenario_deposit); NewBlock 4600]) !! 0%N
            = Some (mk_withdrawal 0%N 150 account_R 4600))
    by (vm_compute; reflexivity).
  assert (Hv : validate (CompleteWithdrawal scenario_complete_150) = Ok tt)
    by reflexivity.
  assert (Hev : do_evaluate
                  (run scenario_requested
                     [Apply (Deposit scenario_deposit); NewBlock 4600])
                  (CompleteWithdrawal scenario_complete_150) = Ok tt)
    by (vm_compute; reflexivity).
  split_and!;
    [exact Hwf | exact Hreq | vm_compute; reflexivity | exact Hpending
     | exact Hv | exact Hev |].
  destruct (complete_resolves_current_balance scenario_created
              scenario_request_150 scenario_requested 0%N
              [Apply (Deposit scenario_deposit); NewBlock 4600]
              scenario_complete_150
              (mk_withdrawal 0%N 150 account_R 4600)
              Hwf Hreq Hpending eq_refl)
    as (_ & b2 & Hb2 & _ & _ & Haccepted & _).
  destruct (Haccepted Hv Hev) as (d3 & _ & Hap & Hbal & _).
  exists d3. split; [exact Hap|].
  vm_compute in Hb2. injection Hb2 as <-. exact Hbal.
Defined.

(** * Further properties of the evaluators *)

(** ** What the evaluations refuse *)

(** X1.  The evaluation of Create looks up the owner, then the asset of the
    initial deposit, then compares the deposit with what the owner holds: the
    first of these that fails decides the failure (NotFound, NotFound,
    InsufficientFunds).  An owner without a ledger entry for the asset holds
    nothing of it, so for that owner the evaluation passes only when the
    initial deposit is not positive. *)
Theorem create_rejections (d : database) (o : time_lock_create_operation) :
  do_evaluate d (Create o)
  = first_failure
      [ (bool_decide (create_owner o ∈ account_index d), NotFound);
        (bool_decide (asset_id (create_initial_deposit o) ∈ asset_index d),
         NotFound);
        (bool_decide
           (amount (create_initial_deposit o)
            <= ledger_of d (create_owner o)
                 (asset_id (create_initial_deposit o))),
         InsufficientFunds) ]
  /\ (account_balances d
        !! (create_owner o, asset_id (create_initial_deposit o)) = None ->
      (do_evaluate d (Create o) = Ok tt <->
       create_owner o ∈ account_index d
       /\ asset_id (create_initial_deposit o) ∈ asset_index d
       /\ amount (create_initial_deposit o) <= 0)).
Proof.
  split.
  - simpl. unfold create_do_evaluate, get_account, get_asset, ledger_of.
    case_bool_decide as Ho.
    + rewrite decide_True by exact Ho. simpl.
      case_bool_decide as Ha.
      * rewrite decide_True by exact Ha. simpl.
        rewrite leb_bool_decide. case_bool_decide; reflexivity.
      * rewrite decide_False by exact Ha. reflexivity.
    + rewrite decide_False by exact Ho. reflexivity.
  - intros Hnone. rewrite create_do_evaluate_Ok.
    unfold ledger_of, get_balance, share_type in *. simpl.
    rewrite Hnone. reflexivity.
Qed.

(** X2.  The evaluation of Deposit fails with NotFound when the balance does
    not exist.  On an existing balance it checks, in this order, that the
    depositor owns the balance (Unauthorized), that the deposit is in the
    asset kind of the balance (AssetMismatch, or NotFound when one of the two
    asset kinds, looked up for the message, does not resolve) and that the
    depositor holds the quantity (InsufficientFunds); a failed deposit leaves
    the database as it was. *)
Theorem deposit_rejections (d : database) (o : time_lock_deposit_operation) :
  store_wf d ->
  match time_lock_balance_index d !! deposit_balance o with
  | None => do_evaluate d (Deposit o) = Err NotFound
  | Some b =>
      do_evaluate d (Deposit o)
      = first_failure
          [ (bool_decide (tlb_owner b = deposit_owner o), Unauthorized);
            (bool_decide
               (asset_id (tlb_amount b) = asset_id (deposit_deposit o)),
             if bool_decide
                  (asset_id (deposit_deposit o) ∈ asset_index d
                   /\ asset_id (tlb_amount b) ∈ asset_index d)
             then AssetMismatch else NotFound);
            (bool_decide
               (amount (deposit_deposit o)
                <= ledger_of d (deposit_owner o)
                     (asset_id (deposit_deposit o))),
             InsufficientFunds) ]
  end
  /\ (do_evaluate d (Deposit o) <> Ok tt ->
      fst (apply_operation d (Deposit o)) = d).
Proof.
  intros Hwf. split.
  - destruct (time_lock_balance_index d !! deposit_balance o) as [b|] eqn:Hb.
    + simpl.
      unfold deposit_do_evaluate, get_time_lock_balance, get_account,
        get_asset, ledger_of, fc_assert_msg.
      rewrite Hb. simpl.
      case_bool_decide as Ho; simpl; [|reflexivity].
      case_bool_decide as Ha; simpl.
      * rewrite decide_True
          by (rewrite <- Ho; exact (proj2 (proj1 Hwf _ _ Hb))).
        simpl.
        rewrite leb_bool_decide. case_bool_decide; reflexivity.
      * destruct (decide (asset_id (deposit_deposit o) ∈ asset_index d))
          as [H1|H1]; simpl;
          [destruct (decide (asset_id (tlb_amount b) ∈ asset_index d))
             as [H2|H2]; simpl|];
          case_bool_decide as Hboth; try reflexivity; exfalso; tauto.
    + simpl. unfold deposit_do_evaluate, get_time_lock_balance.
      rewrite Hb. reflexivity.
  - intros Hfail.
    destruct (apply_operation d (Deposit o)) as [d' [r|e]] eqn:Hap; simpl.
    + apply apply_operation_Ok in Hap as [_ He].
      apply evaluate_do_evaluate in He. contradiction.
    + exact (apply_operation_Err _ _ _ _ Hap).
Qed.

(** X3.  The evaluation of RequestWithdrawal fails with NotFound when the
    balance does not exist.  On an existing balance it checks, in this order,
    that the requester owns the balance (Unauthorized, or NotFound when the
    requester, looked up for the message, does not resolve), that the
    withdrawal is in the asset kind of the balance (AssetMismatch, or NotFound
    when one of the two asset kinds, looked up for the message, does not
    resolve) and that the recipient resolves (NotFound); the quantity is
    never looked at. *)
Theorem withdraw_rejections (d : database) (o : time_lock_withdraw_operation) :
  store_wf d ->
  match time_lock_balance_index d !! withdraw_balance o with
  | None => do_evaluate d (RequestWithdrawal o) = Err NotFound
  | Some b =>
      do_evaluate d (RequestWithdrawal o)
      = first_failure
          [ (bool_decide (tlb_owner b = withdraw_owner o),
             if bool_decide (withdraw_owner o ∈ account_index d)
             then Unauthorized else NotFound);
            (bool_decide
               (asset_id (withdraw_withdrawal o) = asset_id (tlb_amount b)),
             if bool_decide
                  (asset_id (withdraw_withdrawal o) ∈ asset_index d
                   /\ asset_id (tlb_amount b) ∈ asset_index d)
             then AssetMismatch else NotFound);
            (bool_decide (withdraw_recipient o ∈ account_index d), NotFound) ]
  end
  /\ (forall q,
        do_evaluate d
          (RequestWithdrawal
             (mk_withdraw (withdraw_fee o) (withdraw_owner o)
                (withdraw_balance o)
                (mk_asset q (asset_id (withdraw_withdrawal o)))
                (withdraw_recipient o)))
        = do_evaluate d (RequestWithdrawal o)).
Proof.
  intros Hwf. split.
  - destruct (time_lock_balance_index d !! withdraw_balance o) as [b|] eqn:Hb.
    + pose proof (proj2 (proj1 Hwf _ _ Hb)) as Hown.
      simpl.
      unfold withdraw_do_evaluate, get_time_lock_balance, get_account,
        get_asset, fc_assert_msg.
      rewrite Hb. simpl.
      case_bool_decide as Ho; simpl.
      * case_bool_decide as Ha; simpl.
        -- rewrite decide_True by (rewrite <- Ho; exact Hown).
           simpl. case_bool_decide as Hr.
           ++ rewrite decide_True by exact Hr. reflexivity.
           ++ rewrite decide_False by exact Hr. reflexivity.
        -- destruct (decide (asset_id (withdraw_withdrawal o) ∈ asset_index d))
             as [H1|H1]; simpl;
             [destruct (decide (asset_id (tlb_amount b) ∈ asset_index d))
                as [H2|H2]; simpl|];
             case_bool_decide as Hboth; try reflexivity; exfalso; tauto.
      * destruct (decide (withdraw_owner o ∈ account_index d)) as [Hacc|Hacc];
          simpl.
        -- rewrite decide_True by exact Hown. simpl.
           rewrite bool_decide_eq_true_2 by exact Hacc. reflexivity.
        -- rewrite bool_decide_eq_false_2 by exact Hacc. reflexivity.
    + simpl. unfold withdraw_do_evaluate, get_time_lock_balance.
      rewrite Hb. reflexivity.
  - intros q. reflexivity.
Qed.

(** ** How the operations compose *)



(** X5.  Create followed by a Deposit into the new balance leaves the database
    that a single Create of the two quantities together leaves, and the same
    identifier. *)
Theorem create_then_deposit (d : database) (f1 f2 f3 : asset)
    (O : account_id_type) (A : asset_id_type) (q1 q2 period : Z) :
  store_wf d ->
  O ∈ account_index d ->
  A ∈ asset_index d ->
  0 <= q2 ->
  q1 + q2 <= ledger_of d O A ->
  exists d1 d2,
    evaluate d (Create (mk_create f1 O (mk_asset q1 A) period))
    = Ok (d1, object_id_result (next_balance_id d))
    /\ evaluate d1
         (Deposit (mk_deposit f2 O (next_balance_id d) (mk_asset q2 A)))
       = Ok (d2, void_result)
    /\ evaluate d (Create (mk_create f3 O (mk_asset (q1 + q2) A) period))
       = Ok (d2, object_id_result (next_balance_id d)).
Proof.
  intros Hwf HO HA Hq2 Hsum.
  eexists _, _. split_and!.
  - apply create_evaluate_Ok. simpl. split_and!; auto. lia.
  - apply deposit_evaluate_Ok.
    exists (mk_balance O (mk_asset q1 A) period). simpl.
    split_and!; try reflexivity; auto.
    + apply lookup_insert_eq.
    + change (ledger_of (set_balances ?m ?n ?d0) ?a ?x)
        with (ledger_of d0 a x).
      rewrite ledger_of_insert, decide_True by reflexivity. lia.
  - apply create_evaluate_Ok. simpl. split_and!; auto.
    unfold modify_balance, set_balances, set_account_balances; simpl.
    change (ledger_of (mk_database ?a ?b ?l ?t ?m ?n ?w ?x) ?acc ?kk)
      with (default 0 (l !! (acc, kk))).
    rewrite lookup_insert_eq; simpl.
    rewrite insert_insert_eq, alter_insert_eq.
    unfold balance_plus, asset_add; simpl.
    f_equal. f_equal. lia.
Qed.

(** X6.  RequestWithdrawal followed by AbortWithdrawal of the identifier it
    returned, by the same owner, leaves the database as it was before the
    request, except that the identifier is used up. *)
Theorem request_then_abort (d : database) (o : time_lock_withdraw_operation)
    (f : asset) :
  store_wf d ->
  do_evaluate d (RequestWithdrawal o) = Ok tt ->
  exists d1,
    evaluate d (RequestWithdrawal o)
    = Ok (d1, object_id_result (next_withdrawal_id d))
    /\ evaluate d1
         (AbortWithdrawal (mk_abort f (withdraw_owner o) (next_withdrawal_id d)))
       = Ok (set_withdrawals (time_lock_withdrawal_index d)
               (N.succ (next_withdrawal_id d)) d,
             void_result).
Proof.
  intros Hwf Hev.
  pose proof (store_wf_fresh_withdrawal d Hwf) as Hfresh.
  apply withdraw_do_evaluate_Ok in Hev as (b & Hb & Ho & Ha & Hacc & Hrec).
  eexists. split.
  - apply withdraw_evaluate_Ok. exists b. split_and!; eauto.
  - apply abort_evaluate_Ok. eexists _, b. simpl. split_and!.
    + apply lookup_insert_eq.
    + exact Hb.
    + symmetry. exact Ho.
    + reflexivity.
    + unfold remove_withdrawal, set_withdrawals; simpl.
      rewrite delete_insert_id by exact Hfresh. reflexivity.
Qed.

(** ** Pending withdrawals over a history *)

Lemma withdrawals_none_run steps d id :
  (id < next_withdrawal_id d)%N ->
  time_lock_withdrawal_index d !! id = None ->
  time_lock_withdrawal_index (run d steps) !! id = None.
Proof.
  intros Hlt Hnone.
  destruct (time_lock_withdrawal_index (run d steps) !! id) as [w|] eqn:Hw;
    [|reflexivity].
  apply (withdrawals_run_old steps d id w Hlt) in Hw. congruence.
Qed.

Lemma withdrawal_named_NotFound d op id :
  withdrawal_named op = Some id ->
  time_lock_withdrawal_index d !! id = None ->
  do_evaluate d op = Err NotFound.
Proof.
  intros Hop Hnone. destruct op as [o|o|o|o|o]; try discriminate;
    injection Hop as <-; simpl.
  - unfold abort_withdrawal_do_evaluate, get_time_lock_withdrawal.
    rewrite Hnone. reflexivity.
  - unfold complete_withdrawal_do_evaluate, get_time_lock_withdrawal.
    rewrite Hnone. reflexivity.
Qed.

(** X7.  A pending withdrawal is fixed.  Whatever operations and blocks
    follow, as long as the withdrawal is pending its record is the one that
    was created: the balance it refers to, its quantity, its recipient and its
    finalize date do not change. *)
Theorem pending_withdrawal_is_fixed (d : database)
    (id : time_lock_withdrawal_id_type) (w w' : time_lock_withdrawal_object)
    (steps : list step) :
  store_wf d ->
  time_lock_withdrawal_index d !! id = Some w ->
  time_lock_withdrawal_index (run d steps) !! id = Some w' ->
  w' = w.
Proof.
  intros Hwf Hw Hw'.
  pose proof (withdrawals_run_old steps d id w'
                (proj1 (proj2 Hwf _ _ Hw)) Hw') as Hold.
  assert (Heq : Some w = Some w') by (rewrite <- Hw; exact Hold).
  injection Heq as ->. reflexivity.
Qed.

(** X8.  A withdrawal is settled once.  After a successful AbortWithdrawal or
    CompleteWithdrawal of a withdrawal, and whatever operations and blocks
    follow, every AbortWithdrawal and every CompleteWithdrawal that names the
    same withdrawal fails with NotFound and leaves the database as it was: a
    withdrawal is never paid twice, and never paid after it was aborted. *)
Theorem settled_withdrawal_is_gone (d : database) (op : operation)
    (wid : time_lock_withdrawal_id_type) (d1 : database)
    (r : operation_result) (steps : list step) (op' : operation) :
  store_wf d ->
  withdrawal_named op = Some wid ->
  evaluate d op = Ok (d1, r) ->
  withdrawal_named op' = Some wid ->
  time_lock_withdrawal_index (run d1 steps) !! wid = None
  /\ do_evaluate (run d1 steps) op' = Err NotFound
  /\ fst (apply_operation (run d1 steps) op') = run d1 steps.
Proof.
  intros Hwf Hop He Hop'.
  assert (Hgone : time_lock_withdrawal_index d1 !! wid = None
                  /\ (wid < next_withdrawal_id d1)%N).
  { destruct op as [o|o|o|o|o]; try discriminate; injection Hop as <-.
    - apply abort_evaluate_Ok in He as (w & b & Hw & Hb & Ho & -> & ->).
      simpl. split; [apply lookup_delete_eq|].
      exact (proj1 (proj2 Hwf _ _ Hw)).
    - apply complete_evaluate_Ok in He
        as (w & b & Hw & Hb & _ & _ & _ & _ & _ & _ & _ & -> & ->).
      simpl. split; [apply lookup_delete_eq|].
      exact (proj1 (proj2 Hwf _ _ Hw)). }
  destruct Hgone as [Hnone Hlt].
  pose proof (withdrawals_none_run steps d1 wid Hlt Hnone) as Hnone'.
  pose proof (withdrawal_named_NotFound _ op' wid Hop' Hnone') as Hfail.
  split_and!; [exact Hnone' | exact Hfail |].
  unfold apply_operation, evaluate. rewrite Hfail.
  destruct (validate op'); reflexivity.
Qed.

(** X9.  No early release.  Take a request on a balance and any operations
    and blocks after it.  If a CompleteWithdrawal of that request is then
    accepted, the head block time is at least the time of the request plus
    the review period the balance had then, the funds go to the recipient
    named in the request, and their quantity is the one requested. *)
Theorem no_early_release (d0 : database) (o : time_lock_withdraw_operation)
    (d1 : database) (wid : time_lock_withdrawal_id_type) (steps : list step)
    (c : time_lock_complete_withdrawal_operation) (d3 : database)
    (r : operation_result) :
  store_wf d0 ->
  evaluate d0 (RequestWithdrawal o) = Ok (d1, object_id_result wid) ->
  complete_withdrawal c = wid ->
  evaluate (run d1 steps) (CompleteWithdrawal c) = Ok (d3, r) ->
  exists b,
    time_lock_balance_index d0 !! withdraw_balance o = Some b
    /\ head_block_time d0 + tlb_review_period_seconds b
       <= head_block_time (run d1 steps)
    /\ complete_recipient c = withdraw_recipient o
    /\ amount (complete_amount c) = amount (withdraw_withdrawal o)
    /\ ledger_of d3 (withdraw_recipient o) (asset_id (complete_amount c))
       = ledger_of (run d1 steps) (withdraw_recipient o)
           (asset_id (complete_amount c))
         + amount (withdraw_withdrawal o)
    /\ locked_of d3 (withdraw_balance o)
       = locked_of (run d1 steps) (withdraw_balance o)
         - amount (withdraw_withdrawal o).
Proof.
  intros Hwf Hreq Hid Hc.
  pose proof (store_wf_evaluate _ _ _ _ Hwf Hreq) as Hwf1.
  pose proof (store_wf_run steps d1 Hwf1) as Hwf2.
  pose proof (funds_moved_evaluate _ _ _ _ Hwf2 Hc) as Hmoved.
  apply withdraw_evaluate_Ok in Hreq
    as (b & Hb & Ho & Ha & Hacc & Hrec & Hr & Hd1).
  injection Hr as ->.
  apply complete_evaluate_Ok in Hc
    as (w & b2 & Hw & Hb2 & Ht & Hq & Hact & Hrcp & Hamt & Hk & _ & _ & _).
  rewrite Hid in Hw.
  assert (Hw1 : time_lock_withdrawal_index d1 !! next_withdrawal_id d0
                = Some w).
  { apply (withdrawals_run_old steps d1 _ w); [|exact Hw].
    rewrite Hd1. simpl. lia. }
  assert (Hwe : w = mk_withdrawal (withdraw_balance o)
                      (amount (withdraw_withdrawal o)) (withdraw_recipient o)
                      (head_block_time d0 + tlb_review_period_seconds b)).
  { rewrite Hd1 in Hw1. simpl in Hw1. rewrite lookup_insert_eq in Hw1.
    injection Hw1 as <-. reflexivity. }
  destruct Hmoved as (w' & Hw' & Hled & Hlock & _ & _).
  rewrite Hid, Hw in Hw'. injection Hw' as <-.
  rewrite Hwe in Ht, Hrcp, Hamt, Hlock. simpl in Ht, Hrcp, Hamt, Hlock.
  exists b. split_and!.
  - exact Hb.
  - exact Ht.
  - exact Hrcp.
  - exact Hamt.
  - rewrite <- Hrcp, <- Hamt. exact Hled.
  - rewrite <- Hamt. exact Hlock.
Qed.

(** ** Where the funds of a balance can go *)

(** X10.  Funds leave a time-lock balance only through a completed
    withdrawal.  If an accepted operation leaves a balance with less than it
    held, the operation is a CompleteWithdrawal of a withdrawal that was
    pending on that balance and whose finalize date has passed; the balance
    loses the quantity recorded in the withdrawal, and the ledger entry of
    the recipient recorded in the withdrawal gains it. *)
Theorem outflow_only_by_completion (d : database) (op : operation)
    (d' : database) (r : operation_result)
    (id : time_lock_balance_id_type) :
  store_wf d ->
  apply_operation d op = (d', Ok r) ->
  locked_of d' id < locked_of d id ->
  exists c w,
    op = CompleteWithdrawal c
    /\ time_lock_withdrawal_index d !! complete_withdrawal c = Some w
    /\ tlw_balance w = id
    /\ tlw_finalize_date w <= head_block_time d
    /\ 0 < tlw_withdrawal w
    /\ locked_of d' id = locked_of d id - tlw_withdrawal w
    /\ ledger_of d' (tlw_recipient w) (asset_id (complete_amount c))
       = ledger_of d (tlw_recipient w) (asset_id (complete_amount c))
         + tlw_withdrawal w.
Proof.
  intros Hwf [Hv He]%apply_operation_Ok Hless.
  pose proof (funds_moved_evaluate d op d' r Hwf He) as Hmoved.
  destruct op as [o|o|o|o|o]; simpl in Hmoved.
  - exfalso. apply create_validate_Ok in Hv as (_ & Hq & _).
    destruct Hmoved as (_ & Hzero & Hnew & _ & Hframe).
    destruct (decide (id = next_balance_id d)) as [->|Hne].
    + lia.
    + unfold locked_of in Hless. rewrite (Hframe id Hne) in Hless. lia.
  - exfalso. apply deposit_validate_Ok in Hv as (_ & Hq).
    destruct Hmoved as (_ & Hnew & _ & Hframe).
    destruct (decide (id = deposit_balance o)) as [->|Hne].
    + lia.
    + unfold locked_of in Hless. rewrite (Hframe id Hne) in Hless. lia.
  - exfalso. destruct Hmoved as [_ Hsame].
    unfold locked_of in Hless. rewrite Hsame in Hless. lia.
  - exfalso. destruct Hmoved as [_ Hsame].
    unfold locked_of in Hless. rewrite Hsame in Hless. lia.
  - apply complete_validate_Ok in Hv as (_ & Hq).
    destruct Hmoved as (w & Hw & Hled & Hlock & _ & Hframe).
    apply complete_evaluate_Ok in He
      as (w' & b & Hw' & Hb & Ht & _ & _ & Hrcp & Hamt & _).
    rewrite Hw in Hw'. injection Hw' as <-.
    destruct (decide (id = tlw_balance w)) as [->|Hne].
    + exists o, w. rewrite <- Hamt, <- Hrcp. split_and!; auto.
    + exfalso. unfold locked_of in Hless.
      rewrite (Hframe id Hne) in Hless. lia.
Qed.

(** ** No account is overdrawn *)





(** ** Who pays the fee *)

Lemma frame_evaluate d op d' r :
  evaluate d op = Ok (d', r) ->
  account_index d' = account_index d
  /\ asset_index d' = asset_index d
  /\ head_block_time d' = head_block_time d.
Proof.
  intros He. destruct op as [o|o|o|o|o].
  - apply create_evaluate_Ok in He as (_ & _ & _ & _ & ->). auto.
  - apply deposit_evaluate_Ok in He as (? & _ & _ & _ & _ & _ & _ & ->). auto.
  - apply withdraw_evaluate_Ok in He as (? & _ & _ & _ & _ & _ & _ & ->). auto.
  - apply abort_evaluate_Ok in He as (? & ? & _ & _ & _ & _ & ->). auto.
  - apply complete_evaluate_Ok in He
      as (? & ? & _ & _ & _ & _ & _ & _ & _ & _ & _ & _ & ->). auto.
Qed.

Lemma recipients_resolve_evaluate d op d' r :
  recipients_resolve d -> evaluate d op = Ok (d', r) ->
  recipients_resolve d'.
Proof.
  intros Hrr He. unfold recipients_resolve in *.
  destruct op as [o|o|o|o|o].
  - apply create_evaluate_Ok in He as (_ & _ & _ & _ & ->). exact Hrr.
  - apply deposit_evaluate_Ok in He as (? & _ & _ & _ & _ & _ & _ & ->).
    exact Hrr.
  - apply withdraw_evaluate_Ok in He
      as (b & Hb & Ho & Ha & Hacc & Hrec & _ & ->).
    simpl. apply map_Forall_insert_2; [exact Hrec | exact Hrr].
  - apply abort_evaluate_Ok in He as (? & ? & _ & _ & _ & _ & ->).
    simpl. apply map_Forall_delete. exact Hrr.
  - apply complete_evaluate_Ok in He
      as (? & ? & _ & _ & _ & _ & _ & _ & _ & _ & _ & _ & ->).
    simpl. apply map_Forall_delete. exact Hrr.
Qed.

Lemma recipients_resolve_run steps d :
  recipients_resolve d -> recipients_resolve (run d steps).
Proof.
  revert d. induction steps as [|s steps IH]; intros d Hrr; simpl.
  - exact Hrr.
  - apply IH. destruct s as [op|t]; simpl; [|exact Hrr].
    destruct (apply_operation d op) as [d' [r|e]] eqn:Hap; simpl.
    + apply apply_operation_Ok in Hap as [_ He].
      exact (recipients_resolve_evaluate d op d' r Hrr He).
    + apply apply_operation_Err in Hap as ->. exact Hrr.
Qed.

(** X12.  The fee payer resolves.  In a database reached by operations and
    blocks from one where the owner of every balance and the recipient of
    every pending withdrawal resolve, every operation that passes evaluation
    names as its fee payer an account that resolves: the owner for Create,
    Deposit, RequestWithdrawal and AbortWithdrawal, and the acting account,
    which is the owner of the balance or the recipient of the withdrawal, for
    CompleteWithdrawal. *)
Theorem fee_payer_resolves (d : database) (steps : list step)
    (op : operation) :
  store_wf d ->
  recipients_resolve d ->
  do_evaluate (run d steps) op = Ok tt ->
  fee_payer op ∈ account_index (run d steps).
Proof.
  intros Hwf Hrr Hev.
  pose proof (store_wf_run steps d Hwf) as Hwf'.
  pose proof (recipients_resolve_run steps d Hrr) as Hrr'.
  destruct op as [o|o|o|o|o]; simpl.
  - apply create_do_evaluate_Ok in Hev as (Ho & _). exact Ho.
  - apply deposit_do_evaluate_Ok in Hev as (b & _ & _ & _ & Hacc & _).
    exact Hacc.
  - apply withdraw_do_evaluate_Ok in Hev as (b & _ & _ & _ & Hacc & _).
    exact Hacc.
  - apply abort_do_evaluate_Ok in Hev as (w & b & Hw & Hb & ->).
    exact (proj2 (proj1 Hwf' _ _ Hb)).
  - apply complete_do_evaluate_Ok in Hev
      as (w & b & Hw & Hb & _ & _ & [-> | ->] & _).
    + exact (proj2 (proj1 Hwf' _ _ Hb)).
    + exact (Hrr' _ _ Hw).
Qed.

(** ** The default fees *)

(** X13.  An operation that carries the default fee of its kind is never
    refused for its fee, provided the chain precision is positive: its
    stateless validation passes exactly when its own quantities are valid (a
    non-negative initial deposit and a positive review period for Create, a
    positive amount for Deposit, RequestWithdrawal and CompleteWithdrawal,
    nothing for AbortWithdrawal, whose default fee is zero). *)
Theorem default_fee_is_accepted (GRAPHENE_BLOCKCHAIN_PRECISION : share_type)
    (op : operation) :
  0 < GRAPHENE_BLOCKCHAIN_PRECISION ->
  amount (operation_fee op)
  = calculate_fee op (default_fee_parameters GRAPHENE_BLOCKCHAIN_PRECISION op) ->
  (validate op = Ok tt <->
   match op with
   | Create o =>
       0 <= amount (create_initial_deposit o)
       /\ 0 < create_review_period_seconds o
   | Deposit o => 0 < amount (deposit_deposit o)
   | RequestWithdrawal o => 0 < amount (withdraw_withdrawal o)
   | AbortWithdrawal _ => True
   | CompleteWithdrawal o => 0 < amount (complete_amount o)
   end).
Proof.
  intros HP Hfee. destruct op as [o|o|o|o|o]; simpl in Hfee.
  - rewrite create_validate_Ok, Hfee. tauto.
  - rewrite deposit_validate_Ok, Hfee. tauto.
  - rewrite withdraw_validate_Ok, Hfee. tauto.
  - rewrite abort_validate_Ok, Hfee. split; [auto | lia].
  - rewrite complete_validate_Ok, Hfee.
    split; [tauto | intros; split; [lia | assumption]].
Qed.

(** ** Who completes a withdrawal *)

(** X14.  A pending withdrawal is completed in the same way by the owner of
    its balance and by its recipient: with the same recipient, amount and
    withdrawal, the two operations have the same outcome, whatever their fees.
    An account that is neither is refused with Unauthorized once the review
    period is over and the balance covers the amount. *)
Theorem either_party_completes_alike (d : database) (f1 f2 : asset)
    (R : account_id_type) (q : asset) (wid : time_lock_withdrawal_id_type)
    (w : time_lock_withdrawal_object) (b : time_lock_balance_object) :
  time_lock_withdrawal_index d !! wid = Some w ->
  time_lock_balance_index d !! tlw_balance w = Some b ->
  evaluate d (CompleteWithdrawal (mk_complete f1 (tlb_owner b) R q wid))
  = evaluate d (CompleteWithdrawal (mk_complete f2 (tlw_recipient w) R q wid))
  /\ forall f3 other,
       other <> tlb_owner b -> other <> tlw_recipient w ->
       tlw_finalize_date w <= head_block_time d ->
       amount q <= amount (tlb_amount b) ->
       do_evaluate d (CompleteWithdrawal (mk_complete f3 other R q wid))
       = Err Unauthorized.
Proof.
  intros Hw Hb. split.
  - unfold evaluate.
    rewrite (complete_do_evaluate_conditions d
               (mk_complete f1 (tlb_owner b) R q wid) w b Hw Hb).
    rewrite (complete_do_evaluate_conditions d
               (mk_complete f2 (tlw_recipient w) R q wid) w b Hw Hb).
    simpl.
    rewrite (bool_decide_eq_true_2
               (tlb_owner b = tlb_owner b \/ tlb_owner b = tlw_recipient w))
      by (left; reflexivity).
    rewrite (bool_decide_eq_true_2
               (tlw_recipient w = tlb_owner b
                \/ tlw_recipient w = tlw_recipient w))
      by (right; reflexivity).
    reflexivity.
  - intros f3 other Hno Hnr Ht Hq.
    rewrite (complete_do_evaluate_conditions d
               (mk_complete f3 other R q wid) w b Hw Hb).
    simpl.
    rewrite bool_decide_eq_true_2 by exact Ht.
    rewrite bool_decide_eq_true_2 by exact Hq.
    rewrite bool_decide_eq_false_2 by tauto.
    reflexivity.
Qed.

(** ** Completions in either order *)

Lemma balance_minus_comm q1 q2 b :
  balance_minus q2 (balance_minus q1 b) = balance_minus q1 (balance_minus q2 b).
Proof.
  unfold balance_minus, asset_sub; simpl. f_equal. f_equal. lia.
Qed.

Lemma alter_minus_comm (m : gmap N time_lock_balance_object) i1 i2 q1 q2 :
  alter (balance_minus q2) i2 (alter (balance_minus q1) i1 m)
  = alter (balance_minus q1) i1 (alter (balance_minus q2) i2 m).
Proof.
  destruct (decide (i1 = i2)) as [->|Hne].
  - apply map_eq. intros j. destruct (decide (i2 = j)) as [<-|Hj].
    + rewrite !lookup_alter_eq.
      destruct (m !! i2) as [b|]; simpl; [|reflexivity].
      f_equal. apply balance_minus_comm.
    + rewrite !lookup_alter_ne by exact Hj. reflexivity.
  - apply alter_alter_ne. congruence.
Qed.

Lemma insert_add_comm (m : gmap (N * N) Z) k1 k2 q1 q2 :
  <[k2 := default 0 (<[k1 := default 0 (m !! k1) + q1]> m !! k2) + q2]>
    (<[k1 := default 0 (m !! k1) + q1]> m)
  = <[k1 := default 0 (<[k2 := default 0 (m !! k2) + q2]> m !! k1) + q1]>
      (<[k2 := default 0 (m !! k2) + q2]> m).
Proof.
  destruct (decide (k1 = k2)) as [->|Hne].
  - rewrite !lookup_insert_eq, !insert_insert_eq. simpl. f_equal. lia.
  - rewrite !lookup_insert_ne by congruence.
    apply insert_insert_ne. congruence.
Qed.

(** X15.  Completions commute.  When two CompleteWithdrawal operations are
    accepted one after the other, they are also accepted in the other order,
    and the database they leave is the same. *)
Theorem completions_commute (d : database)
    (c1 c2 : time_lock_complete_withdrawal_operation) (d1 d2 : database)
    (r1 r2 : operation_result) :
  apply_operation d (CompleteWithdrawal c1) = (d1, Ok r1) ->
  apply_operation d1 (CompleteWithdrawal c2) = (d2, Ok r2) ->
  exists d1',
    apply_operation d (CompleteWithdrawal c2) = (d1', Ok void_result)
    /\ apply_operation d1' (CompleteWithdrawal c1) = (d2, Ok void_result).
Proof.
  intros [Hv1 He1]%apply_operation_Ok [Hv2 He2]%apply_operation_Ok.
  pose proof Hv1 as Hv1'. pose proof Hv2 as Hv2'.
  apply complete_validate_Ok in Hv1' as [_ Hq1].
  apply complete_validate_Ok in Hv2' as [_ Hq2].
  apply complete_evaluate_Ok in He1
    as (w1 & b1 & Hw1 & Hb1 & Ht1 & Hf1 & Hact1 & Hrcp1 & Hamt1 & Hk1 & _
        & -> & ->).
  apply complete_evaluate_Ok in He2
    as (w2 & b2 & Hw2 & Hb2 & Ht2 & Hf2 & Hact2 & Hrcp2 & Hamt2 & Hk2 & _
        & -> & ->).
  simpl in Hw2, Hb2, Ht2.
  apply lookup_delete_Some in Hw2 as [Hne Hw2].
  apply lookup_alter_Some in Hb2.
  (* the balance of the second withdrawal, as it is before the first *)
  assert (Hb2' : exists b,
            time_lock_balance_index d !! tlw_balance w2 = Some b
            /\ tlb_owner b = tlb_owner b2
            /\ asset_id (tlb_amount b) = asset_id (tlb_amount b2)
            /\ amount (tlb_amount b2) <= amount (tlb_amount b)
            /\ (tlw_balance w1 = tlw_balance w2 ->
                b = b1
                /\ amount (tlb_amount b2)
                   = amount (tlb_amount b1) - amount (complete_amount c1))).
  { destruct Hb2 as [[Heq (b & Hb & ->)]|[Hneq Hb]].
    - exists b. rewrite <- Heq, Hb1 in Hb. injection Hb as <-.
      rewrite <- Heq. simpl. split_and!; auto; try lia.
    - exists b2. split_and!; auto; try lia; try contradiction. }
  destruct Hb2' as (b & Hb & Hbo & Hbk & Hbq & Hsame).
  set (d1' := remove_withdrawal
                (set_account_balances
                   (<[(complete_recipient c2, asset_id (complete_amount c2))
                      := ledger_of d (complete_recipient c2)
                           (asset_id (complete_amount c2))
                         + amount (complete_amount c2)]>
                      (account_balances d))
                   (modify_balance d (tlw_balance w2)
                      (balance_minus (complete_amount c2))))
                (complete_withdrawal c2)).
  exists d1'. split.
  - apply apply_operation_Ok. split; [exact Hv2|].
    apply complete_evaluate_Ok. exists w2, b.
    split_and!; try assumption; try reflexivity; try congruence; try lia.
  - apply apply_operation_Ok. split; [exact Hv1|].
    apply complete_evaluate_Ok.
    destruct (decide (tlw_balance w1 = tlw_balance w2)) as [Heq|Hneq].
    + destruct (Hsame Heq) as [-> Hamount].
      exists w1, (balance_minus (complete_amount c2) b1). subst d1'. simpl.
      split_and!; try assumption; try reflexivity; try lia.
      * rewrite lookup_delete_ne by congruence. exact Hw1.
      * rewrite Heq, lookup_alter_eq, <- Heq, Hb1. reflexivity.
      * unfold remove_withdrawal, set_account_balances, modify_balance,
          set_withdrawals, set_balances, ledger_of, get_balance; simpl.
        f_equal.
        -- apply insert_add_comm.
        -- apply alter_minus_comm.
        -- apply delete_delete.
    + exists w1, b1. subst d1'. simpl.
      split_and!; try assumption; try reflexivity; try lia.
      * rewrite lookup_delete_ne by congruence. exact Hw1.
      * rewrite lookup_alter_ne by congruence. exact Hb1.
      * unfold remove_withdrawal, set_account_balances, modify_balance,
          set_withdrawals, set_balances, ledger_of, get_balance; simpl.
        f_equal.
        -- apply insert_add_comm.
        -- apply alter_minus_comm.
        -- apply delete_delete.
Qed.

(** ** The further properties on the worked scenario *)

Lemma deposit_rejections_witness :
  store_wf scenario_created
  /\ do_evaluate scenario_created
       (Deposit (mk_deposit scenario_fee account_R 0%N (mk_asset 50 asset_A)))
     = Err Unauthorized
  /\ do_evaluate scenario_created
       (Deposit (mk_deposit scenario_fee account_O 0%N (mk_asset 50 0%N)))
     = Err AssetMismatch
  /\ do_evaluate scenario_created
       (Deposit (mk_deposit scenario_fee account_O 0%N (mk_asset 50 8%N)))
     = Err NotFound.
Proof.
  assert (Hwf : store_wf scenario_created) by by_computation.
  split; [exact Hwf|].
  pose proof (proj1 (deposit_rejections scenario_created
                       (mk_deposit scenario_fee account_R 0%N
                          (mk_asset 50 asset_A)) Hwf)) as Htable1.
  pose proof (proj1 (deposit_rejections scenario_created
                       (mk_deposit scenario_fee account_O 0%N
                          (mk_asset 50 0%N)) Hwf)) as Htable2.
  pose proof (proj1 (deposit_rejections scenario_created
                       (mk_deposit scenario_fee account_O 0%N
                          (mk_asset 50 8%N)) Hwf)) as Htable3.
  vm_compute in Htable1, Htable2, Htable3.
  split_and!; vm_compute; assumption.
Defined.

Lemma withdraw_rejections_witness :
  store_wf scenario_created
  /\ do_evaluate scenario_created
       (RequestWithdrawal
          (mk_withdraw scenario_fee account_O 0%N (mk_asset 150 asset_A) 9%N))
     = Err NotFound
  /\ do_evaluate scenario_created
       (RequestWithdrawal
          (mk_withdraw scenario_fee account_R 0%N (mk_asset 150 asset_A)
             account_R))
     = Err Unauthorized
  /\ do_evaluate scenario_created
       (RequestWithdrawal
          (mk_withdraw scenario_fee 9%N 0%N (mk_asset 150 asset_A) account_R))
     = Err NotFound
  /\ do_evaluate scenario_created
       (RequestWithdrawal
          (mk_withdraw scenario_fee account_O 0%N (mk_asset 150 8%N)
             account_R))
     = Err NotFound.
Proof.
  assert (Hwf : store_wf scenario_created) by by_computation.
  split; [exact Hwf|].
  pose proof (proj1 (withdraw_rejections scenario_created
                       (mk_withdraw scenario_fee account_O 0%N
                          (mk_asset 150 asset_A) 9%N) Hwf)) as Htable1.
  pose proof (proj1 (withdraw_rejections scenario_created
                       (mk_withdraw scenario_fee account_R 0%N
                          (mk_asset 150 asset_A) account_R) Hwf)) as Htable2.
  pose proof (proj1 (withdraw_rejections scenario_created
                       (mk_withdraw scenario_fee 9%N 0%N
                          (mk_asset 150 asset_A) account_R) Hwf)) as Htable3.
  pose proof (proj1 (withdraw_rejections scenario_created
                       (mk_withdraw scenario_fee account_O 0%N
                          (mk_asset 150 8%N) account_R) Hwf)) as Htable4.
  vm_compute in Htable1, Htable2, Htable3, Htable4.
  split_and!; vm_compute; assumption.
Defined.


Lemma create_then_deposit_witness :
  store_wf scenario_genesis
  /\ 100 + 50 <= ledger_of scenario_genesis account_O asset_A
  /\ exists d2,
       evaluate scenario_genesis
         (Create (mk_create scenario_fee account_O (mk_asset (100 + 50) asset_A)
                    3600))
       = Ok (d2, object_id_result 0%N)
       /\ evaluate scenario_created (Deposit scenario_deposit)
          = Ok (d2, void_result).
Proof.
  assert (Hwf : store_wf scenario_genesis) by by_computation.
  assert (Hsum : 100 + 50 <= ledger_of scenario_genesis account_O asset_A)
    by (vm_compute; discriminate).
  split_and!; [exact Hwf | exact Hsum |].
  destruct (create_then_deposit scenario_genesis scenario_fee scenario_fee
              scenario_fee account_O asset_A 100 50 3600 Hwf
              ltac:(by_computation) ltac:(by_computation)
              ltac:(vm_compute; discriminate) Hsum)
    as (d1 & d2 & Hc & Hd & Hboth).
  exists d2. split; [exact Hboth|].
  assert (Hd1 : d1 = scenario_created).
  { vm_compute in Hc. injection Hc as <-. vm_compute. reflexivity. }
  rewrite Hd1 in Hd. exact Hd.
Defined.

Lemma request_then_abort_witness :
  store_wf scenario_created
  /\ do_evaluate scenario_created (RequestWithdrawal scenario_request_150)
     = Ok tt
  /\ evaluate scenario_requested (AbortWithdrawal scenario_abort)
     = Ok (set_withdrawals (time_lock_withdrawal_index scenario_created) 1%N
             scenario_created,
           void_result).
Proof.
  assert (Hwf : store_wf scenario_created) by by_computation.
  assert (Hev : do_evaluate scenario_created
                  (RequestWithdrawal scenario_request_150) = Ok tt)
    by (vm_compute; reflexivity).
  split_and!; [exact Hwf | exact Hev |].
  destruct (request_then_abort scenario_created scenario_request_150
              scenario_no_fee Hwf Hev) as (d1 & Hreq & Habort).
  assert (Hd1 : d1 = scenario_requested).
  { vm_compute in Hreq. injection Hreq as <-. vm_compute. reflexivity. }
  rewrite Hd1 in Habort. exact Habort.
Defined.

Lemma pending_withdrawal_is_fixed_witness :
  store_wf scenario_requested
  /\ time_lock_withdrawal_index scenario_requested !! 0%N
     = Some (mk_withdrawal 0%N 150 account_R 4600)
  /\ forall w',
       time_lock_withdrawal_index
         (run scenario_requested
            [Apply (Deposit scenario_deposit); NewBlock 9000]) !! 0%N
       = Some w' ->
       w' = mk_withdrawal 0%N 150 account_R 4600.
Proof.
  assert (Hwf : store_wf scenario_requested) by by_computation.
  assert (Hw : time_lock_withdrawal_index scenario_requested !! 0%N
               = Some (mk_withdrawal 0%N 150 account_R 4600))
    by (vm_compute; reflexivity).
  split_and!; [exact Hwf | exact Hw |].
  intros w' Hw'.
  exact (pending_withdrawal_is_fixed scenario_requested 0%N
           (mk_withdrawal 0%N 150 account_R 4600) w'
           [Apply (Deposit scenario_deposit); NewBlock 9000] Hwf Hw Hw').
Defined.

Lemma settled_withdrawal_is_gone_witness :
  store_wf scenario_requested
  /\ evaluate scenario_requested (AbortWithdrawal scenario_abort)
     = Ok (remove_withdrawal scenario_requested 0%N, void_result)
  /\ do_evaluate
       (run (remove_withdrawal scenario_requested 0%N)
          [Apply (Deposit scenario_deposit); NewBlock 4600])
       (CompleteWithdrawal
          (mk_complete scenario_no_fee account_R account_R
             (mk_asset 150 asset_A) 0%N))
     = Err NotFound.
Proof.
  assert (Hwf : store_wf scenario_requested) by by_computation.
  assert (Hab : evaluate scenario_requested (AbortWithdrawal scenario_abort)
                = Ok (remove_withdrawal scenario_requested 0%N, void_result))
    by (vm_compute; reflexivity).
  split_and!; [exact Hwf | exact Hab |].
  exact (proj1 (proj2 (settled_withdrawal_is_gone scenario_requested
                         (AbortWithdrawal scenario_abort) 0%N
                         (remove_withdrawal scenario_requested 0%N)
                         void_result
                         [Apply (Deposit scenario_deposit); NewBlock 4600]
                         (CompleteWithdrawal
                            (mk_complete scenario_no_fee account_R account_R
                               (mk_asset 150 asset_A) 0%N))
                         Hwf eq_refl Hab eq_refl))).
Defined.

Lemma no_early_release_witness :
  store_wf scenario_created
  /\ evaluate scenario_created (RequestWithdrawal scenario_request_150)
     = Ok (scenario_requested, object_id_result 0%N)
  /\ evaluate scenario_due (CompleteWithdrawal scenario_complete_150)
     = Ok (fst (apply_operation scenario_due
                  (CompleteWithdrawal scenario_complete_150)),
           void_result)
  /\ head_block_time scenario_created + 3600 <= head_block_time scenario_due.
Proof.
  assert (Hwf : store_wf scenario_created) by by_computation.
  assert (Hreq : evaluate scenario_created
                   (RequestWithdrawal scenario_request_150)
                 = Ok (scenario_requested, object_id_result 0%N))
    by (vm_compute; reflexivity).
  assert (Hc : evaluate
                 (run scenario_requested
                    [Apply (Deposit scenario_deposit); NewBlock 4600])
                 (CompleteWithdrawal scenario_complete_150)
               = Ok (fst (apply_operation scenario_due
                            (CompleteWithdrawal scenario_complete_150)),
                     void_result))
    by (vm_compute; reflexivity).
  split_and!; [exact Hwf | exact Hreq | exact Hc |].
  destruct (no_early_release scenario_created scenario_request_150
              scenario_requested 0%N
              [Apply (Deposit scenario_deposit); NewBlock 4600]
              scenario_complete_150 _ void_result Hwf Hreq eq_refl Hc)
    as (b & Hb & Ht & _).
  vm_compute in Hb. injection Hb as <-. exact Ht.
Defined.

Lemma outflow_only_by_completion_witness :
  store_wf scenario_due
  /\ apply_operation scenario_due (CompleteWithdrawal scenario_complete_150)
     = (fst (apply_operation scenario_due
               (CompleteWithdrawal scenario_complete_150)),
        Ok void_result)
  /\ locked_of
       (fst (apply_operation scenario_due
               (CompleteWithdrawal scenario_complete_150))) 0%N
     < locked_of scenario_due 0%N
  /\ exists c w,
       CompleteWithdrawal scenario_complete_150 = CompleteWithdrawal c
       /\ time_lock_withdrawal_index scenario_due !! complete_withdrawal c
          = Some w
       /\ tlw_balance w = 0%N.
Proof.
  assert (Hwf : store_wf scenario_due) by by_computation.
  assert (Hap : apply_operation scenario_due
                  (CompleteWithdrawal scenario_complete_150)
                = (fst (apply_operation scenario_due
                          (CompleteWithdrawal scenario_complete_150)),
                   Ok void_result))
    by (vm_compute; reflexivity).
  assert (Hless : locked_of
                    (fst (apply_operation scenario_due
                            (CompleteWithdrawal scenario_complete_150))) 0%N
                  < locked_of scenario_due 0%N)
    by (vm_compute; reflexivity).
  split_and!; [exact Hwf | exact Hap | exact Hless |].
  destruct (outflow_only_by_completion scenario_due
              (CompleteWithdrawal scenario_complete_150) _ void_result 0%N
              Hwf Hap Hless)
    as (c & w & Hop & Hw & Hbal & _).
  exists c, w. split_and!; assumption.
Defined.


Lemma fee_payer_resolves_witness :
  store_wf scenario_genesis
  /\ recipients_resolve scenario_genesis
  /\ do_evaluate (run scenario_genesis (take 6 scenario_steps))
       (CompleteWithdrawal scenario_complete)
     = Ok tt
  /\ fee_payer (CompleteWithdrawal scenario_complete)
     ∈ account_index (run scenario_genesis (take 6 scenario_steps)).
Proof.
  assert (Hwf : store_wf scenario_genesis) by by_computation.
  assert (Hrr : recipients_resolve scenario_genesis) by by_computation.
  assert (Hev : do_evaluate (run scenario_genesis (take 6 scenario_steps))
                  (CompleteWithdrawal scenario_complete) = Ok tt)
    by (vm_compute; reflexivity).
  split_and!; [exact Hwf | exact Hrr | exact Hev |].
  exact (fee_payer_resolves scenario_genesis (take 6 scenario_steps)
           (CompleteWithdrawal scenario_complete) Hwf Hrr Hev).
Defined.

Lemma default_fee_is_accepted_witness :
  0 < 100000
  /\ amount (operation_fee (AbortWithdrawal scenario_abort))
     = calculate_fee (AbortWithdrawal scenario_abort)
         (default_fee_parameters 100000 (AbortWithdrawal scenario_abort))
  /\ validate (AbortWithdrawal scenario_abort) = Ok tt.
Proof.
  assert (HP : 0 < 100000) by lia.
  assert (Hfee : amount (operation_fee (AbortWithdrawal scenario_abort))
                 = calculate_fee (AbortWithdrawal scenario_abort)
                     (default_fee_parameters 100000
                        (AbortWithdrawal scenario_abort)))
    by reflexivity.
  split_and!; [exact HP | exact Hfee |].
  exact (proj2 (default_fee_is_accepted 100000
                  (AbortWithdrawal scenario_abort) HP Hfee) I).
Defined.

Lemma either_party_completes_alike_witness :
  time_lock_withdrawal_index scenario_due !! 0%N
  = Some (mk_withdrawal 0%N 150 account_R 4600)
  /\ time_lock_balance_index scenario_due !! 0%N
     = Some (mk_balance account_O (mk_asset 150 asset_A) 3600)
  /\ evaluate scenario_due
       (CompleteWithdrawal
          (mk_complete scenario_fee account_O account_R
             (mk_asset 150 asset_A) 0%N))
     = evaluate scenario_due (CompleteWithdrawal scenario_complete_150).
Proof.
  assert (Hw : time_lock_withdrawal_index scenario_due !! 0%N
               = Some (mk_withdrawal 0%N 150 account_R 4600))
    by (vm_compute; reflexivity).
  assert (Hb : time_lock_balance_index scenario_due
                 !! tlw_balance (mk_withdrawal 0%N 150 account_R 4600)
               = Some (mk_balance account_O (mk_asset 150 asset_A) 3600))
    by (vm_compute; reflexivity).
  split_and!; [exact Hw | exact Hb |].
  exact (proj1 (either_party_completes_alike scenario_due scenario_fee
                  scenario_no_fee account_R (mk_asset 150 asset_A) 0%N
                  (mk_withdrawal 0%N 150 account_R 4600)
                  (mk_balance account_O (mk_asset 150 asset_A) 3600)
                  Hw Hb)).
Defined.

Lemma completions_commute_witness :
  apply_operation scenario_two_requests
    (CompleteWithdrawal scenario_complete_60)
  = (scenario_after_60, Ok void_result)
  /\ apply_operation scenario_after_60
       (CompleteWithdrawal scenario_complete_40)
     = (scenario_after_60_40, Ok void_result)
  /\ exists d1',
       apply_operation scenario_two_requests
         (CompleteWithdrawal scenario_complete_40) = (d1', Ok void_result)
       /\ apply_operation d1' (CompleteWithdrawal scenario_complete_60)
          = (scenario_after_60_40, Ok void_result).
Proof.
  assert (H1 : apply_operation scenario_two_requests
                 (CompleteWithdrawal scenario_complete_60)
               = (scenario_after_60, Ok void_result))
    by (vm_compute; reflexivity).
  assert (H2 : apply_operation scenario_after_60
                 (CompleteWithdrawal scenario_complete_40)
               = (scenario_after_60_40, Ok void_result))
    by (vm_compute; reflexivity).
  split_and!; [exact H1 | exact H2 |].
  exact (completions_commute scenario_two_requests scenario_complete_60
           scenario_complete_40 scenario_after_60 scenario_after_60_40
           void_result void_result H1 H2).
Defined.

(** ** Where the funds of a balance come from *)

(** X16.  Funds enter a time-lock balance only from its owner.  If an
    accepted operation leaves under an identifier more than was held there,
    the operation is the Create that made the balance, or a Deposit into it by
    its owner in its asset kind; and the ledger entry of that owner loses
    what the balance gains. *)
Theorem inflow_only_from_owner (d : database) (op : operation)
    (d' : database) (r : operation_result)
    (id : time_lock_balance_id_type) :
  store_wf d ->
  apply_operation d op = (d', Ok r) ->
  locked_of d id < locked_of d' id ->
  (exists o,
     op = Create o
     /\ id = next_balance_id d
     /\ time_lock_balance_index d !! id = None
     /\ ledger_of d (create_owner o) (asset_id (create_initial_deposit o))
        - ledger_of d' (create_owner o) (asset_id (create_initial_deposit o))
        = locked_of d' id - locked_of d id)
  \/ (exists o b,
        op = Deposit o
        /\ id = deposit_balance o
        /\ time_lock_balance_index d !! id = Some b
        /\ deposit_owner o = tlb_owner b
        /\ asset_id (deposit_deposit o) = asset_type b
        /\ ledger_of d (deposit_owner o) (asset_id (deposit_deposit o))
           - ledger_of d' (deposit_owner o) (asset_id (deposit_deposit o))
           = locked_of d' id - locked_of d id).
Proof.
  intros Hwf [Hv He]%apply_operation_Ok Hmore.
  pose proof (funds_moved_evaluate d op d' r Hwf He) as Hmoved.
  destruct op as [o|o|o|o|o]; simpl in Hmoved.
  - left. destruct Hmoved as (Hled & Hzero & Hnew & _ & Hframe).
    destruct (decide (id = next_balance_id d)) as [->|Hne].
    + exists o. split_and!; try reflexivity.
      * exact (store_wf_fresh_balance d Hwf).
      * lia.
    + exfalso. unfold locked_of in Hmore.
      rewrite (Hframe id Hne) in Hmore. lia.
  - right. destruct Hmoved as (Hled & Hnew & _ & Hframe).
    apply deposit_evaluate_Ok in He as (b & Hb & Ho & Ha & _).
    destruct (decide (id = deposit_balance o)) as [->|Hne].
    + exists o, b. split_and!; try reflexivity; try congruence.
      * unfold asset_type. congruence.
      * lia.
    + exfalso. unfold locked_of in Hmore.
      rewrite (Hframe id Hne) in Hmore. lia.
  - exfalso. destruct Hmoved as [_ Hsame].
    unfold locked_of in Hmore. rewrite Hsame in Hmore. lia.
  - exfalso. destruct Hmoved as [_ Hsame].
    unfold locked_of in Hmore. rewrite Hsame in Hmore. lia.
  - exfalso. apply complete_validate_Ok in Hv as (_ & Hq).
    destruct Hmoved as (w & Hw & Hled & Hlock & _ & Hframe).
    destruct (decide (id = tlw_balance w)) as [->|Hne].
    + lia.
    + unfold locked_of in Hmore. rewrite (Hframe id Hne) in Hmore. lia.
Qed.

Lemma inflow_only_from_owner_witness :
  store_wf scenario_created
  /\ apply_operation scenario_created (Deposit scenario_deposit)
     = (fst (apply_operation scenario_created (Deposit scenario_deposit)),
        Ok void_result)
  /\ locked_of scenario_created 0%N
     < locked_of
         (fst (apply_operation scenario_created (Deposit scenario_deposit)))
         0%N
  /\ ((exists o, Deposit scenario_deposit = Create o)
      \/ exists o b,
           Deposit scenario_deposit = Deposit o
           /\ time_lock_balance_index scenario_created !! 0%N = Some b
           /\ deposit_owner o = tlb_owner b).
Proof.
  assert (Hwf : store_wf scenario_created) by by_computation.
  assert (Hap : apply_operation scenario_created (Deposit scenario_deposit)
                = (fst (apply_operation scenario_created
                          (Deposit scenario_deposit)),
                   Ok void_result))
    by (vm_compute; reflexivity).
  assert (Hmore : locked_of scenario_created 0%N
                  < locked_of
                      (fst (apply_operation scenario_created
                              (Deposit scenario_deposit))) 0%N)
    by (vm_compute; reflexivity).
  split_and!; [exact Hwf | exact Hap | exact Hmore |].
  destruct (inflow_only_from_owner scenario_created
              (Deposit scenario_deposit) _ void_result 0%N Hwf Hap Hmore)
    as [(o & Hop & _)|(o & b & Hop & _ & Hb & Ho & _)].
  - left. exists o. exact Hop.
  - right. exists o, b. split_and!; assumption.
Defined.

Lemma create_rejections_witness :
  account_balances scenario_genesis !! (account_R, asset_A) = None
  /\ do_evaluate scenario_genesis
       (Create (mk_create scenario_fee account_R (mk_asset 0 asset_A) 3600))
     = Ok tt
  /\ do_evaluate scenario_genesis
       (Create (mk_create scenario_fee account_R (mk_asset 1 asset_A) 3600))
     <> Ok tt.
Proof.
  assert (Hnone : account_balances scenario_genesis !! (account_R, asset_A)
                  = None) by (vm_compute; reflexivity).
  split_and!; [exact Hnone | |].
  - apply (proj2 (create_rejections scenario_genesis
                    (mk_create scenario_fee account_R (mk_asset 0 asset_A)
                       3600)) Hnone).
    split_and!; [by_computation | by_computation | simpl; lia].
  - intros Hok.
    apply (proj2 (create_rejections scenario_genesis
                    (mk_create scenario_fee account_R (mk_asset 1 asset_A)
                       3600)) Hnone) in Hok.
    destruct Hok as (_ & _ & Hq). simpl in Hq. lia.
Defined.
